(** * The lecture-to-notebook converter: a shallow embedding

    [convert_to_ipynb.py] walks the syntax tree of a lecture script and
    emits notebook cells; [reference.py] holds the [Reference] record and
    [join].  The development embeds both as functions over an explicit
    converter state, then relates them to the prose specification.

    Conventions of the embedding:
    - a Python [str] is a [string], one [ascii] per character;
    - a [dict] whose order is never observed is a [gmap]; [self.functions],
      which [convert] iterates, keeps its insertion order in an
      association list;
    - the mutable fields of [LectureConverter] are threaded explicitly;
    - what the converter asks of its host (the file system, [repr]) is the
      class [Host]. *)

From Stdlib Require Import ZArith String Ascii List Bool DecimalString.
From stdpp Require Import base option list gmap strings.

Set Default Proof Using "Type".
Set Warnings "-register-all".

(* ===================================================================== *)
(** ** Python text and dictionary primitives *)
(* ===================================================================== *)

Module Py.

(** Truth value of a [str]: empty is false. *)
Definition truthy (s : string) : bool :=
  match s with
  | EmptyString => false
  | String _ _ => true
  end.

(** [a or b] on strings. *)
Definition or_else (a b : string) : string := if truthy a then a else b.

(** [sep.join(lines)]. *)
Fixpoint str_join (sep : string) (lines : list string) : string :=
  match lines with
  | [] => ""
  | s :: rest =>
      match rest with
      | [] => s
      | _ :: _ => s +:+ sep +:+ str_join sep rest
      end
  end.

(** [str.isspace] on one character below 256: TAB..CR, FS..US, space,
    NEL and NBSP. *)
Definition isspace (c : ascii) : bool :=
  let n := nat_of_ascii c in
  ((9 <=? n) && (n <=? 13)) || ((28 <=? n) && (n <=? 32))
  || (n =? 133) || (n =? 160).

(** [s.rstrip()]. *)
Fixpoint rstrip (s : string) : string :=
  match s with
  | EmptyString => EmptyString
  | String c rest =>
      match rstrip rest with
      | EmptyString => if isspace c then EmptyString else String c EmptyString
      | kept => String c kept
      end
  end.

(** [s.lstrip()]. *)
Fixpoint lstrip (s : string) : string :=
  match s with
  | EmptyString => EmptyString
  | String c rest => if isspace c then lstrip rest else s
  end.

(** [s.strip()]. *)
Definition strip (s : string) : string := rstrip (lstrip s).

(** [s.startswith(p)]. *)
Definition startswith (s p : string) : bool := String.prefix p s.

(** [str(n)] for an [int]. *)
Definition str_int (n : Z) : string := NilZero.string_of_int (Z.to_int n).

(** An insertion-ordered [dict] with [str] keys: assigning to a key that
    is present keeps its position and replaces its value. *)
Definition dict (V : Type) : Type := list (string * V).

Fixpoint dict_set {V} (k : string) (v : V) (d : dict V) : dict V :=
  match d with
  | [] => [(k, v)]
  | (k', v') :: rest =>
      if String.eqb k' k then (k, v) :: rest else (k', v') :: dict_set k v rest
  end.

Fixpoint dict_get {V} (k : string) (d : dict V) : option V :=
  match d with
  | [] => None
  | (k', v') :: rest => if String.eqb k' k then Some v' else dict_get k rest
  end.

Definition dict_mem {V} (k : string) (d : dict V) : bool :=
  match dict_get k d with Some _ => true | None => false end.

Definition dict_keys {V} (d : dict V) : list string := map fst d.

(** [s.replace(old, new)] for a non-empty [old]: the occurrences of
    [old] are found from left to right, each search starting after the
    occurrence before it.  [skip] counts the characters of an occurrence
    that are still to be passed over. *)
Fixpoint replace_from (old new : string) (skip : nat) (s : string) : string :=
  match s with
  | EmptyString => EmptyString
  | String c rest =>
      match skip with
      | S skip' => replace_from old new skip' rest
      | O =>
          if String.prefix old s
          then new +:+ replace_from old new (String.length old - 1) rest
          else String c (replace_from old new 0 rest)
      end
  end.

Definition replace (s old new : string) : string := replace_from old new 0 s.

End Py.

(* ===================================================================== *)
(** ** reference.py *)
(* ===================================================================== *)

Module RefPy.

(** The frozen dataclass [Reference]; every field defaults to [None]. *)
Record Reference : Type := mkReference {
  title : option string;
  authors : option (list string);
  organization : option string;
  date : option string;
  url : option string;
  description : option string;
  notes : option string
}.

Definition eqb_opt_str (a b : option string) : bool :=
  match a, b with
  | None, None => true
  | Some x, Some y => String.eqb x y
  | _, _ => false
  end.

Fixpoint eqb_list_str (a b : list string) : bool :=
  match a, b with
  | [], [] => true
  | x :: a', y :: b' => String.eqb x y && eqb_list_str a' b'
  | _, _ => false
  end.

Definition eqb_opt_list (a b : option (list string)) : bool :=
  match a, b with
  | None, None => true
  | Some x, Some y => eqb_list_str x y
  | _, _ => false
  end.

(** The [__eq__] that [@dataclass] generates: the two field tuples are
    compared component by component, in declaration order. *)
Definition Reference_eq (a b : Reference) : bool :=
  eqb_opt_str (title a) (title b)
  && eqb_opt_list (authors a) (authors b)
  && eqb_opt_str (organization a) (organization b)
  && eqb_opt_str (date a) (date b)
  && eqb_opt_str (url a) (url b)
  && eqb_opt_str (description a) (description b)
  && eqb_opt_str (notes a) (notes b).

(** [join] takes its lines as a variadic argument list and returns
    them joined by one newline character. *)
Definition join (lines : list string) : string :=
  Py.str_join (String (ascii_of_nat 10) EmptyString) lines.

End RefPy.

(* ===================================================================== *)
(** ** The syntax tree the converter reads *)
(* ===================================================================== *)

(** Only the node classes and attributes that the converter inspects are
    kept; every other expression or statement class is [OtherExpr] or
    [OtherStmt]. *)

Module Ast.

(** The value of an [ast.Constant].  [COther] stands for a [float],
    [complex] or [bytes] literal and carries the text [str] gives for
    it. *)
Inductive constant : Type :=
| CNone
| CBool (b : bool)
| CInt (n : Z)
| CStr (s : string)
| CEllipsis
| COther (shown : string).

(** [str(value)] of a constant's value. *)
Definition str (c : constant) : string :=
  match c with
  | CNone => "None"
  | CBool true => "True"
  | CBool false => "False"
  | CInt n => Py.str_int n
  | CStr s => s
  | CEllipsis => "Ellipsis"
  | COther shown => shown
  end.

Inductive expr : Type :=
| Constant (value : constant)
| Name (id : string)
| Call (func : expr) (args : list expr) (keywords : list keyword)
| JoinedStr (values : list expr)
| FormattedValue (value : expr)
| Tuple (elts : list expr)
| Compare (left : expr)
| OtherExpr
with keyword : Type :=
| Keyword (arg : option string) (value : expr).

(** A statement node together with the text that
    [ast.get_source_segment(self.source, stmt)] cuts out for it ([None]
    when the node has no position). *)
Inductive stmt : Type :=
| Stmt (segment : option string) (node : stmt_node)
with stmt_node : Type :=
| Expr (value : expr)
| Assign (targets : list expr) (value : expr)
| FunctionDef (name : string) (body : list stmt)
| AsyncFunctionDef (name : string) (body : list stmt)
| ClassDef (name : string)
| If (test : expr)
| OtherStmt.

Definition get_source_segment (s : stmt) : option string :=
  match s with Stmt seg _ => seg end.

Definition node_of (s : stmt) : stmt_node :=
  match s with Stmt _ n => n end.

(** A call whose callee is a plain name: what remains of a node after
    [isinstance(e, ast.Call) and isinstance(e.func, ast.Name)]. *)
Record call : Type := mkCall {
  func_id : string;
  call_args : list expr;
  call_keywords : list keyword
}.

Definition as_named_call (e : expr) : option call :=
  match e with
  | Call (Name f) args kws => Some (mkCall f args kws)
  | _ => None
  end.

End Ast.

Import Ast.

(* ===================================================================== *)
(** ** convert_to_ipynb.py *)
(* ===================================================================== *)

(** [CONTENT_FUNCTIONS]: functions that contribute to Markdown content. *)
Definition CONTENT_FUNCTIONS : list string :=
  ["text"; "link"; "image"; "system_text";
   "named_link"; "article_link"; "blog_link"; "x_link"; "youtube_link"].

Definition in_names (x : string) (names : list string) : bool :=
  existsb (String.eqb x) names.

Arguments in_names : simpl never.

(** One character of line feed. *)
Definition NL : string := String (ascii_of_nat 10) EmptyString.

(** A notebook cell.  The remaining keys of the emitted dictionary are
    constants of the cell type ([metadata] is empty, a code cell has no
    outputs and no execution count); [source] is a one-element list. *)
Inductive cell_type : Type := markdown | code.

Record cell : Type := mkCell {
  cell_kind : cell_type;
  source : list string
}.

(** The fields of a [LectureConverter] that the conversion reads and
    writes.  [functions] maps a name to the body of its [FunctionDef];
    [references] maps a name to its (title, url) pair. *)
Record LectureConverter : Type := mkConverter {
  tree : list stmt;
  functions : Py.dict (list stmt);
  references : gmap string (string * string);
  cells : list cell;
  current_markdown : list string;
  current_code : list string
}.

Definition with_cells (self : LectureConverter) (c : list cell) :=
  mkConverter (tree self) (functions self) (references self)
              c (current_markdown self) (current_code self).

Definition with_markdown (self : LectureConverter) (m : list string) :=
  mkConverter (tree self) (functions self) (references self)
              (cells self) m (current_code self).

Definition with_code (self : LectureConverter) (c : list string) :=
  mkConverter (tree self) (functions self) (references self)
              (cells self) (current_markdown self) c.

(** *** Reference table *)

(** The loop of [get_arg_value_simple] over [node.keywords]: the first
    keyword of that name whose value is a constant. *)
Fixpoint first_constant_keyword (name : string) (kws : list keyword) : option string :=
  match kws with
  | [] => None
  | Keyword a v :: rest =>
      match a, v with
      | Some a', Constant c =>
          if String.eqb a' name then Some (str c)
          else first_constant_keyword name rest
      | _, _ => first_constant_keyword name rest
      end
  end.

(** [get_arg_value_simple]: the positional argument when it is a
    constant, else the first keyword of that name whose value is a
    constant, else the empty string. *)
Definition get_arg_value_simple (node : call) (arg_index : nat)
    (kwarg_name : option string) : string :=
  match call_args node !! arg_index with
  | Some (Constant c) => str c
  | _ =>
      match kwarg_name with
      | Some name =>
          if Py.truthy name then
            match first_constant_keyword name (call_keywords node) with
            | Some s => s
            | None => ""
            end
          else ""
      | None => ""
      end
  end.

(** The (title, url) that one call on the right of an assignment
    denotes; both stay empty for any other callee. *)
Definition ref_title_url (node : call) : string * string :=
  if String.eqb (func_id node) "Reference" then
    (get_arg_value_simple node 0 (Some "title"),
     get_arg_value_simple node 1 (Some "url"))
  else if String.eqb (func_id node) "arxiv_reference" then
    ("", get_arg_value_simple node 0 None)
  else ("", "").

(** The inner loop over [stmt.targets]. *)
Definition bind_targets (ref_title ref_url : string) (targets : list expr)
    (refs : gmap string (string * string)) : gmap string (string * string) :=
  fold_left
    (fun acc target =>
       match target with
       | Name name => <[name := (Py.or_else ref_title name, ref_url)]> acc
       | _ => acc
       end)
    targets refs.

(** One iteration of the loop of [_scan_for_refs]. *)
Definition scan_stmt (refs : gmap string (string * string)) (s : stmt)
    : gmap string (string * string) :=
  match node_of s with
  | Assign targets value =>
      match as_named_call value with
      | Some node =>
          let '(ref_title, ref_url) := ref_title_url node in
          if Py.truthy ref_url then bind_targets ref_title ref_url targets refs
          else refs
      | None => refs
      end
  | _ => refs
  end.

Definition _scan_for_refs (body : list stmt) : gmap string (string * string) :=
  fold_left scan_stmt body ∅.

(** What [load_references] finds next to the input file. *)
Inductive references_py : Type :=
| Missing
| Unparseable
| Parsed (body : list stmt).

(** [refs.update(other)] is [other ∪ refs]: the union keeps the left
    value on a shared key. *)
Definition load_references (refs_py : references_py) (self_tree : list stmt)
    : gmap string (string * string) :=
  let refs : gmap string (string * string) :=
    match refs_py with
    | Parsed body => _scan_for_refs body ∪ ∅
    | Missing | Unparseable => ∅
    end in
  _scan_for_refs self_tree ∪ refs.

(** [__init__], from the parsed input file. *)
Definition collect_functions (body : list stmt) : Py.dict (list stmt) :=
  fold_left
    (fun d s =>
       match node_of s with
       | FunctionDef name fbody => Py.dict_set name fbody d
       | _ => d
       end)
    body [].

Definition init (refs_py : references_py) (parsed : list stmt) : LectureConverter :=
  mkConverter parsed (collect_functions parsed)
              (load_references refs_py parsed) [] [] [].

(** *** Flushing the buffers *)

Definition markdown_cell (buffer : list string) : cell :=
  mkCell markdown [Py.str_join (NL +:+ NL) buffer +:+ NL].

Definition code_cell (buffer : list string) : cell :=
  mkCell code [Py.rstrip (Py.str_join "" buffer) +:+ NL].

Definition flush_markdown (self : LectureConverter) : LectureConverter :=
  match current_markdown self with
  | [] => self
  | _ :: _ =>
      with_markdown
        (with_cells self (cells self ++ [markdown_cell (current_markdown self)]))
        []
  end.

Definition flush_code (self : LectureConverter) : LectureConverter :=
  match current_code self with
  | [] => self
  | _ :: _ =>
      with_code
        (with_cells self (cells self ++ [code_cell (current_code self)]))
        []
  end.

(** *** Resolving the arguments of a content call *)

(** What the converter asks of the machine it runs on.
    - [repr s] is Python's [repr] of the string [s];
    - [read_image path] is [Some (data, mime)] when the file that [path]
      names, relative to the input file, exists and can be read: [data]
      is its base64 text and [mime] the guess of [mimetypes.guess_type];
      it is [None] when the file is absent or reading it raises. *)
Class Host : Type := {
  repr : string -> string;
  read_image : string -> option (string * option string)
}.

(** What [get_arg_value] returns: a string, or the (title, url) tuple of
    a known reference. *)
Inductive value : Type :=
| VStr (s : string)
| VRef (title url : string).

(** [for kw in node.keywords: if kw.arg == kwarg_name: ...; break]. *)
Fixpoint first_keyword (name : string) (kws : list keyword) : option expr :=
  match kws with
  | [] => None
  | Keyword a v :: rest =>
      match a with
      | Some a' => if String.eqb a' name then Some v else first_keyword name rest
      | None => first_keyword name rest
      end
  end.

(** The argument that [get_arg_value] looks at. *)
Definition select_arg (node : call) (arg_index : nat) (kwarg_name : option string)
    : option expr :=
  match call_args node !! arg_index with
  | Some a => Some a
  | None =>
      match kwarg_name with
      | Some name =>
          if Py.truthy name then first_keyword name (call_keywords node) else None
      | None => None
      end
  end.

(** The loop over [reversed(context_body)], given the statements already
    in reverse order.  Its guard [stmt == node] compares a statement node
    with the call node by identity and never holds, so no statement is
    skipped by it.  An assignment of the name to anything but a constant
    or a [run_policy_gradient] call lets the loop go on. *)
Fixpoint scan_bindings (name : string) (stmts : list stmt) : string :=
  match stmts with
  | [] => name
  | s :: rest =>
      match node_of s with
      | Assign [Name target] v =>
          if String.eqb target name then
            match v with
            | Constant c => str c
            | Call (Name f) _ _ =>
                if String.eqb f "run_policy_gradient" then name
                else scan_bindings name rest
            | _ => scan_bindings name rest
            end
          else scan_bindings name rest
      | _ => scan_bindings name rest
      end
  end.

(** One part of an f-string, as the loop over [arg.values] renders it;
    a part that is neither a constant nor a formatted value adds
    nothing. *)
Definition render_part (res : string) (part : expr) : string :=
  match part with
  | Constant c => res +:+ str c
  | FormattedValue (Name id) => res +:+ ("{" +:+ id +:+ "}")
  | FormattedValue _ => res +:+ "{...}"
  | _ => res
  end.

Definition get_arg_value (self : LectureConverter) (node : call) (arg_index : nat)
    (kwarg_name : option string) (context_body : option (list stmt)) : value :=
  match select_arg node arg_index kwarg_name with
  | None => VStr ""
  | Some (Constant c) => VStr (str c)
  | Some (Name id) =>
      match references self !! id with
      | Some (t, u) => VRef t u
      | None =>
          match context_body with
          | Some body => VStr (scan_bindings id (rev body))
          | None => VStr id
          end
      end
  | Some (JoinedStr values) => VStr (fold_left render_part values "")
  | Some _ => VStr ""
  end.

(** *** Formatting a content call *)

Section Formatting.

Context `{Host}.

(** [str(v)], as an f-string interpolates it. *)
Definition str_value (v : value) : string :=
  match v with
  | VStr s => s
  | VRef t u => "(" +:+ repr t +:+ ", " +:+ repr u +:+ ")"
  end.

(** Truth value: a 2-tuple is always true. *)
Definition truthy_value (v : value) : bool :=
  match v with
  | VStr s => Py.truthy s
  | VRef _ _ => true
  end.

Definition is_str (v : value) : bool :=
  match v with VStr _ => true | VRef _ _ => false end.

Definition img_tag (src : string) (width : value) : string :=
  "<img src=" +:+ String (ascii_of_nat 34) "" +:+ src +:+ String (ascii_of_nat 34) ""
  +:+ " width=" +:+ String (ascii_of_nat 34) "" +:+ str_value width
  +:+ String (ascii_of_nat 34) "" +:+ " />".

Definition md_image (src : string) : string := "![image](" +:+ src +:+ ")".

Definition show_image (src : string) (width : value) : string :=
  if truthy_value width then img_tag src width else md_image src.

Definition md_link (title url : string) : string :=
  "[" +:+ title +:+ "](" +:+ url +:+ ")".

Definition format_content_call (self : LectureConverter) (node : call)
    (context_body : option (list stmt)) : string :=
  let func_name := func_id node in
  let arg i kw := get_arg_value self node i kw context_body in
  if String.eqb func_name "text" then
    match arg 0 None with
    | VRef t _ => t
    | VStr s => s
    end
  else if String.eqb func_name "link" then
    let '(title, url) :=
      match arg 0 (Some "title") with
      | VRef t u => (t, VStr u)
      | VStr s => (s, arg 1 (Some "url"))
      end in
    let '(title, url) :=
      if negb (is_str url) || negb (truthy_value url) then
        match references self !! title with
        | Some (t, u) => (t, VStr u)
        | None => (title, url)
        end
      else (title, url) in
    if negb (truthy_value url) then title
    else md_link title (str_value url)
  else if String.eqb func_name "image" then
    let path := match arg 0 None with VRef _ u => u | VStr s => s end in
    let width := arg 1 (Some "width") in
    if Py.startswith path "http://" || Py.startswith path "https://" then
      show_image path width
    else
      match read_image path with
      | Some (data, mime) =>
          let mime :=
            match mime with
            | Some m => if Py.truthy m then m else "image/png"
            | None => "image/png"
            end in
          show_image ("data:" +:+ mime +:+ ";base64," +:+ data) width
      | None => show_image path width
      end
  else if in_names func_name ["article_link"; "blog_link"; "x_link"; "youtube_link"] then
    let url := match arg 0 None with VRef _ u => u | VStr s => s end in
    md_link "link" url
  else if String.eqb func_name "named_link" then
    let name := match arg 0 None with VRef t _ => t | VStr s => s end in
    let url := match arg 1 None with VRef _ u => u | VStr s => s end in
    md_link name url
  else "".

End Formatting.

(** *** Walking a body *)

Section Walking.

Context `{Host}.

(** Appending to the buffers. *)
Definition append_markdown (content : string) (self : LectureConverter) :=
  with_markdown self (current_markdown self ++ [content]).

Definition append_code (line : string) (self : LectureConverter) :=
  with_code self (current_code self ++ [line]).

(** The fall-through at the end of the loop body: the statement goes to
    the code buffer when it has a non-empty source segment. *)
Definition emit_code (self : LectureConverter) (s : stmt) : LectureConverter :=
  let self := flush_markdown self in
  match get_source_segment s with
  | Some stmt_source =>
      if Py.truthy stmt_source then append_code (stmt_source +:+ NL) self
      else self
  | None => self
  end.

(** The loop over the elements of a tuple statement: the stripped
    non-empty results when every element is a content call, [None] as
    soon as one is not. *)
Fixpoint tuple_markdown (self : LectureConverter) (body : list stmt)
    (elts : list expr) (line_markdown : list string) : option (list string) :=
  match elts with
  | [] => Some line_markdown
  | el :: rest =>
      match as_named_call el with
      | Some node =>
          if in_names (func_id node) CONTENT_FUNCTIONS then
            let content := format_content_call self node (Some body) in
            tuple_markdown self body rest
              (if Py.truthy content then line_markdown ++ [Py.strip content]
               else line_markdown)
          else None
      | None => None
      end
  end.

(** One iteration of the loop of [process_body]; [recur] is
    [self.process_body] for the nested call. *)
Definition process_stmt
    (recur : list stmt -> LectureConverter -> option LectureConverter)
    (body : list stmt) (self : LectureConverter) (s : stmt)
    : option LectureConverter :=
  match node_of s with
  | Expr expr_value =>
      match as_named_call expr_value with
      | Some node =>
          let func_name := func_id node in
          if in_names func_name CONTENT_FUNCTIONS then
            let self := flush_code self in
            let content := format_content_call self node (Some body) in
            Some (if Py.truthy content then append_markdown content self else self)
          else
            match Py.dict_get func_name (functions self) with
            | Some fbody => recur fbody (flush_markdown (flush_code self))
            | None => Some (emit_code self s)
            end
      | None =>
          match expr_value with
          | Tuple elts =>
              match tuple_markdown self body elts [] with
              | Some line_markdown =>
                  Some (append_markdown
                          (Py.str_join " " (List.filter Py.truthy line_markdown))
                          (flush_code self))
              | None => Some (emit_code self s)
              end
          | _ => Some (emit_code self s)
          end
      end
  | _ => Some (emit_code self s)
  end.

(** The [for] loop, threading the converter through the statements. *)
Fixpoint for_each (step : LectureConverter -> stmt -> option LectureConverter)
    (stmts : list stmt) (self : LectureConverter) : option LectureConverter :=
  match stmts with
  | [] => Some self
  | s :: rest =>
      match step self s with
      | Some self' => for_each step rest self'
      | None => None
      end
  end.

(** [process_body].  [depth] bounds the nesting of calls of
    [process_body] inside itself; [None] is a walk that needs a deeper
    nesting than that (Python ends such a walk with [RecursionError]
    at its recursion limit). *)
Fixpoint process_body (depth : nat) (body : list stmt) (self : LectureConverter)
    : option LectureConverter :=
  match depth with
  | O => None
  | S depth' => for_each (process_stmt (process_body depth') body) body self
  end.

(** *** convert *)

(** Whether the first loop of [convert] skips a top-level statement. *)
Definition skipped_at_top_level (s : stmt) : bool :=
  match node_of s with
  | FunctionDef _ _ | AsyncFunctionDef _ _ | ClassDef _ => true
  | Assign _ value =>
      match as_named_call value with
      | Some node => in_names (func_id node) ["Reference"; "arxiv_reference"]
      | None => false
      end
  | If (Compare (Name id)) => String.eqb id "__name__"
  | _ => false
  end.

Definition top_level_code (body : list stmt) : list string :=
  fold_left
    (fun acc s =>
       if skipped_at_top_level s then acc
       else
         match get_source_segment s with
         | Some stmt_source =>
             if Py.truthy stmt_source then acc ++ [stmt_source +:+ NL] else acc
         | None => acc
         end)
    body [].

(** The name [convert] settles on: [main], unless it is not a key of
    [self.functions] and some key starts with [lecture_], in which case
    the first such key in iteration order. *)
Definition entry_point (fns : Py.dict (list stmt)) : string :=
  if Py.dict_mem "main" fns then "main"
  else
    match find (fun name => Py.startswith name "lecture_") (Py.dict_keys fns) with
    | Some name => name
    | None => "main"
    end.

(** [convert], up to the [cells] array of the notebook it writes. *)
Definition convert (depth : nat) (self : LectureConverter) : option (list cell) :=
  let self := with_code self (current_code self ++ top_level_code (tree self)) in
  let walked :=
    match Py.dict_get (entry_point (functions self)) (functions self) with
    | Some fbody => process_body depth fbody self
    | None => Some self
    end in
  match walked with
  | Some self => Some (cells (flush_markdown (flush_code self)))
  | None => None
  end.

End Walking.

(** *** The command line *)

(** The path the script writes to: [args.output or
    input_path.replace(".py", ".ipynb")], where [args.output] is [None]
    when the option is not given. *)
Definition output_path (output : option string) (input_path : string) : string :=
  match output with
  | Some given =>
      if Py.truthy given then given else Py.replace input_path ".py" ".ipynb"
  | None => Py.replace input_path ".py" ".ipynb"
  end.

(* ===================================================================== *)
(** ** The vocabulary of the specification *)
(* ===================================================================== *)

(** The definitions of this part do not come from the program: they say,
    over the same syntax trees, what the specification talks about
    (statement roles, maximal runs, the last definition of a name), so
    that the program can be compared with them. *)

(** *** Roles of statements and runs of like statements *)

(** The role of a statement in a walked body, with what it contributes. *)
Inductive role : Type :=
| Prose (entries : list string)
| CodeText (entries : list string)
| Inline (fbody : list stmt).

(** A bare call to a content function, as an expression statement. *)
Definition content_call_of (s : stmt) : option call :=
  match node_of s with
  | Expr (Call (Name f) args kws) =>
      if in_names f CONTENT_FUNCTIONS then Some (mkCall f args kws) else None
  | _ => None
  end.

(** A tuple statement all of whose elements are content calls. *)
Fixpoint content_calls (elts : list expr) : option (list call) :=
  match elts with
  | [] => Some []
  | Call (Name f) args kws :: rest =>
      if in_names f CONTENT_FUNCTIONS then
        match content_calls rest with
        | Some calls => Some (mkCall f args kws :: calls)
        | None => None
        end
      else None
  | _ :: _ => None
  end.

Definition content_tuple_of (s : stmt) : option (list call) :=
  match node_of s with
  | Expr (Tuple elts) => content_calls elts
  | _ => None
  end.

(** A bare call to a function that the input file defines at top level
    and that is not a content function. *)
Definition inlined_body (self : LectureConverter) (s : stmt) : option (list stmt) :=
  match node_of s with
  | Expr (Call (Name f) _ _) =>
      if in_names f CONTENT_FUNCTIONS then None
      else Py.dict_get f (functions self)
  | _ => None
  end.

(** The source text of a statement as a code-buffer entry. *)
Definition code_entries (s : stmt) : list string :=
  match get_source_segment s with
  | Some src => if Py.truthy src then [src +:+ NL] else []
  | None => []
  end.

Section Roles.

Context `{Host}.

Definition prose_entries (self : LectureConverter) (body : list stmt) (node : call)
    : list string :=
  let content := format_content_call self node (Some body) in
  if Py.truthy content then [content] else [].

Definition tuple_entry (self : LectureConverter) (body : list stmt)
    (calls : list call) : string :=
  let results := map (fun node => format_content_call self node (Some body)) calls in
  Py.str_join " "
    (List.filter Py.truthy (map Py.strip (List.filter Py.truthy results))).

Definition role_of (self : LectureConverter) (body : list stmt) (s : stmt) : role :=
  match content_call_of s with
  | Some node => Prose (prose_entries self body node)
  | None =>
      match content_tuple_of s with
      | Some calls => Prose [tuple_entry self body calls]
      | None =>
          match inlined_body self s with
          | Some fbody => Inline fbody
          | None => CodeText (code_entries s)
          end
      end
  end.

End Roles.

(** Maximal runs: adjacent statements of the same role are merged, their
    contributions in order; an inlined call stands alone. *)
Fixpoint runs (items : list role) : list role :=
  match items with
  | [] => []
  | it :: rest =>
      match it, runs rest with
      | Prose a, Prose b :: more => Prose (a ++ b) :: more
      | CodeText a, CodeText b :: more => CodeText (a ++ b) :: more
      | _, merged => it :: merged
      end
  end.

(** Two roles of the same kind, prose or code. *)
Definition like (a b : role) : bool :=
  match a, b with
  | Prose _, Prose _ | CodeText _, CodeText _ => true
  | _, _ => false
  end.

(** No two neighbours of a list are alike. *)
Fixpoint alternating (items : list role) : bool :=
  match items with
  | a :: (b :: _) as rest => negb (like a b) && alternating rest
  | _ => true
  end.

(** What a role contributes, whichever buffer it goes to. *)
Definition entries_of (r : role) : list string :=
  match r with
  | Prose e | CodeText e => e
  | Inline _ => []
  end.

(** The cell of one run: none when the run contributed nothing. *)
Definition run_cell (r : role) : list cell :=
  match r with
  | Prose ((_ :: _) as entries) => [markdown_cell entries]
  | CodeText ((_ :: _) as entries) => [code_cell entries]
  | _ => []
  end.

Definition cells_of_runs (items : list role) : list cell :=
  flat_map run_cell (runs items).

(** The buffers of a converter, read as a run that is still open. *)
Definition open_run (self : LectureConverter) : list role :=
  match current_markdown self, current_code self with
  | _ :: _, _ => [Prose (current_markdown self)]
  | [], _ :: _ => [CodeText (current_code self)]
  | [], [] => []
  end.

(** *** Definitions of functions and of references, by name *)

(** The body of the last top-level [def name] of a module. *)
Definition last_def (name : string) (body : list stmt) : option (list stmt) :=
  fold_left
    (fun acc s =>
       match node_of s with
       | FunctionDef n fbody => if String.eqb n name then Some fbody else acc
       | _ => acc
       end)
    body None.

(** The name of the first top-level [def] whose name starts with
    [lecture_]. *)
Fixpoint first_lecture_name (body : list stmt) : option string :=
  match body with
  | [] => None
  | s :: rest =>
      match node_of s with
      | FunctionDef n _ =>
          if Py.startswith n "lecture_" then Some n else first_lecture_name rest
      | _ => first_lecture_name rest
      end
  end.

(** The entry function of a module. *)
Definition entry_function (body : list stmt) : option (list stmt) :=
  match last_def "main" body with
  | Some fbody => Some fbody
  | None =>
      match first_lecture_name body with
      | Some n => last_def n body
      | None => None
      end
  end.

(** Whether a target list binds the plain name [x]. *)
Definition binds (x : string) (targets : list expr) : bool :=
  existsb (fun t => match t with Name n => String.eqb n x | _ => false end) targets.

(** The table entry that one top-level statement gives the name [x]: the
    statement is an assignment that binds [x] to a [Reference] or
    [arxiv_reference] call whose url is a non-empty constant. *)
Definition ref_entry (x : string) (s : stmt) : option (string * string) :=
  match node_of s with
  | Assign targets (Call (Name f) args kws) =>
      let '(t, u) := ref_title_url (mkCall f args kws) in
      if binds x targets && Py.truthy u then Some (Py.or_else t x, u) else None
  | _ => None
  end.

(** The entry of the last statement of a module that gives [x] one. *)
Definition last_entry (x : string) (body : list stmt) : option (string * string) :=
  fold_left
    (fun acc s => match ref_entry x s with Some p => Some p | None => acc end)
    body None.

(** *** Local bindings *)

(** A single-target assignment of a constant to [name], with the string
    value of the constant. *)
Definition assigns_constant (name : string) (s : stmt) : option string :=
  match node_of s with
  | Assign [Name target] (Constant c) =>
      if String.eqb target name then Some (str c) else None
  | _ => None
  end.

(** A single-target assignment of a [run_policy_gradient] call to
    [name]. *)
Definition assigns_policy_run (name : string) (s : stmt) : bool :=
  match node_of s with
  | Assign [Name target] (Call (Name f) _ _) =>
      String.eqb target name && String.eqb f "run_policy_gradient"
  | _ => false
  end.

(** A statement at which the search for a binding of [name] stops. *)
Definition settles (name : string) (s : stmt) : bool :=
  match assigns_constant name s with
  | Some _ => true
  | None => assigns_policy_run name s
  end.

(** The text of one part of an interpolated string. *)
Definition part_text (part : expr) : string :=
  match part with
  | Constant c => str c
  | FormattedValue (Name x) => "{" +:+ x +:+ "}"
  | FormattedValue _ => "{...}"
  | _ => ""
  end.

(** The statements that a walk of [body] meets, by role: a call to a
    function of the file stands before the statements of that function's
    body, which are met in its place.  [depth] bounds the nesting of such
    calls as in [process_body]; [None] is a body that nests deeper. *)
Section Flattening.

Context `{Host}.

Fixpoint flatten_with (inner : list stmt -> option (list role))
    (self : LectureConverter) (body stmts : list stmt) : option (list role) :=
  match stmts with
  | [] => Some []
  | s :: rest =>
      match role_of self body s with
      | Inline fbody =>
          match inner fbody with
          | Some met =>
              match flatten_with inner self body rest with
              | Some later => Some (Inline fbody :: met ++ later)
              | None => None
              end
          | None => None
          end
      | r =>
          match flatten_with inner self body rest with
          | Some later => Some (r :: later)
          | None => None
          end
      end
  end.

Fixpoint flatten (depth : nat) (self : LectureConverter) (body : list stmt)
    : option (list role) :=
  match depth with
  | O => None
  | S depth' => flatten_with (flatten depth' self) self body body
  end.

End Flattening.

(** One buffer at most is in use. *)
Definition one_buffer (self : LectureConverter) : Prop :=
  current_markdown self = [] \/ current_code self = [].

(** Two converters with the same function and reference tables. *)
Definition same_tables (a b : LectureConverter) : Prop :=
  references a = references b /\ functions a = functions b.

(** A walk [recur] that meets, on every body, the statements that
    [inner] lists, and emits their runs. *)
Definition follows (self0 : LectureConverter)
    (recur : list stmt -> LectureConverter -> option LectureConverter)
    (inner : list stmt -> option (list role)) : Prop :=
  forall fbody self,
    same_tables self self0 -> one_buffer self ->
    match inner fbody with
    | Some met =>
        exists self',
          recur fbody self = Some self'
          /\ same_tables self' self0
          /\ one_buffer self'
          /\ forall suffix,
               cells self' ++ cells_of_runs (open_run self' ++ suffix)
               = cells self ++ cells_of_runs (open_run self ++ met ++ suffix)
    | None => recur fbody self = None
    end.

(** Every url of a reference table is non-empty. *)
Definition urls_nonempty (refs : gmap string (string * string)) : Prop :=
  forall name t u, refs !! name = Some (t, u) -> Py.truthy u = true.

(** The effect of a statement of a given role on the converter, apart
    from the nested walk of an inlined call. *)
Definition add_markdown (entries : list string) (self : LectureConverter) :=
  with_markdown self (current_markdown self ++ entries).

Definition add_code (entries : list string) (self : LectureConverter) :=
  with_code self (current_code self ++ entries).

Definition act (r : role) (self : LectureConverter) : LectureConverter :=
  match r with
  | Prose entries => add_markdown entries (flush_code self)
  | CodeText entries => add_code entries (flush_markdown self)
  | Inline _ => flush_markdown (flush_code self)
  end.

(** *** Further vocabulary *)

(** [old] occurs somewhere in [s]. *)
Fixpoint occurs (old s : string) : bool :=
  String.prefix old s
  || match s with
     | EmptyString => false
     | String _ rest => occurs old rest
     end.

(** The last character of a text. *)
Fixpoint last_char (s : string) : option ascii :=
  match s with
  | EmptyString => None
  | String c EmptyString => Some c
  | String _ rest => last_char rest
  end.

(** A cell as a notebook reader expects it: one source string that ends
    with a newline; in a code cell no white space stands before that
    newline. *)
Definition well_formed_cell (c : cell) : Prop :=
  exists text,
    source c = [text +:+ NL]
    /\ (cell_kind c = code ->
        forall ch, last_char text = Some ch -> Py.isspace ch = false).

(** [b] is [a] later in a walk: the tables and the tree are the same and
    the cells of [a] are the first cells of [b]. *)
Definition grows (a b : LectureConverter) : Prop :=
  tree b = tree a
  /\ functions b = functions a
  /\ references b = references a
  /\ exists emitted, cells b = cells a ++ emitted.

(** The names of the top-level [def]s of a module, in order. *)
Definition def_names (body : list stmt) : list string :=
  flat_map
    (fun s => match node_of s with FunctionDef n _ => [n] | _ => [] end)
    body.

(** A path that [image] takes for a remote one. *)
Definition is_remote (path : string) : bool :=
  Py.startswith path "http://" || Py.startswith path "https://".

(** An assignment of a call of [Reference] or [arxiv_reference]. *)
Definition reference_assignment (seg : option string) (targets : list expr)
    (f : string) (args : list expr) (kws : list keyword) : stmt :=
  Stmt seg (Assign targets (Call (Name f) args kws)).

(* ===================================================================== *)
(** ** Sample scripts *)
(* ===================================================================== *)

(** A host without image files; its [repr] is the one Python gives for
    text free of quotes, backslashes and control characters. *)
Definition plain_host : Host :=
  {| repr := fun s => "'" +:+ s +:+ "'";
     read_image := fun _ => None |}.

(** Shorthands for writing statements down. *)
Definition lit (s : string) : expr := Constant (CStr s).

Definition call_of (f : string) (args : list expr) : expr := Call (Name f) args [].

Definition expr_stmt (src : string) (e : expr) : stmt := Stmt (Some src) (Expr e).

Definition assign_stmt (src : string) (x : string) (e : expr) : stmt :=
  Stmt (Some src) (Assign [Name x] e).

Definition def_stmt (src : string) (name : string) (body : list stmt) : stmt :=
  Stmt (Some src) (FunctionDef name body).

(** A script whose [main] binds [name] to a constant, rebinds it to the
    result of a training run, and prints it. *)
Definition policy_body : list stmt :=
  [ assign_stmt "name = 'Ada'" "name" (lit "Ada");
    assign_stmt "name = run_policy_gradient()" "name" (call_of "run_policy_gradient" []);
    expr_stmt "text(name)" (call_of "text" [Name "name"]) ].

Definition policy_script : list stmt :=
  [ def_stmt "def main(): ..." "main" policy_body ].

(** The parts of the interpolated string
    [f'Loss is {loss} after {n + 1} steps'] and a call that prints it. *)
Definition loss_parts : list expr :=
  [ lit "Loss is "; FormattedValue (Name "loss"); lit " after ";
    FormattedValue OtherExpr; lit " steps" ].

Definition loss_call : call := mkCall "text" [JoinedStr loss_parts] [].

(** A script that prints a constant binding and an interpolated string. *)
Definition greeting_body : list stmt :=
  [ assign_stmt "who = 'world'" "who" (lit "world");
    assign_stmt "who = compute()" "who" (call_of "compute" []);
    expr_stmt "text(who)" (call_of "text" [Name "who"]);
    expr_stmt "text(f'Loss is {loss} after {n + 1} steps')"
      (call_of "text" [JoinedStr loss_parts]) ].

Definition greeting_script : list stmt :=
  [ def_stmt "def main(): ..." "main" greeting_body ].

(** A script with one reference and links written in four ways. *)
Definition reference_stmt (src x : string) (kws : list keyword) : stmt :=
  Stmt (Some src) (Assign [Name x] (Call (Name "Reference") [] kws)).

Definition link_two : call := mkCall "link" [lit "Stanford"; lit "https://stanford.edu"] [].
Definition link_ref : call := mkCall "link" [Name "paper"] [].
Definition link_key : call := mkCall "link" [lit "paper"] [].
Definition link_plain : call := mkCall "link" [lit "plain words"] [].

Definition call_expr (c : call) : expr :=
  Call (Name (func_id c)) (call_args c) (call_keywords c).

Definition links_body : list stmt :=
  [ expr_stmt "link('Stanford', 'https://stanford.edu')" (call_expr link_two);
    expr_stmt "link(paper)" (call_expr link_ref);
    expr_stmt "link('paper')" (call_expr link_key);
    expr_stmt "link('plain words')" (call_expr link_plain) ].

Definition links_script : list stmt :=
  [ reference_stmt "paper = Reference(title='Attention', url='https://a.org')" "paper"
      [Keyword (Some "title") (lit "Attention"); Keyword (Some "url") (lit "https://a.org")];
    def_stmt "def main(): ..." "main" links_body ].

(** A script whose [main] calls a function of the file before a line of
    code. *)
Definition intro_call : stmt := expr_stmt "intro()" (call_of "intro" []).

Definition intro_main_body : list stmt :=
  [ intro_call; assign_stmt "x = 1" "x" (Constant (CInt 1)) ].

Definition intro_script : list stmt :=
  [ def_stmt "def intro(): ..." "intro"
      [ expr_stmt "text('Welcome')" (call_of "text" [lit "Welcome"]) ];
    def_stmt "def main(): ..." "main" intro_main_body ].

(** A script whose [main] prints an empty text between two lines of
    code. *)
Definition empty_text_call : stmt := expr_stmt "text('')" (call_of "text" [lit ""]).

Definition spacer_body : list stmt :=
  [ assign_stmt "x = 1" "x" (Constant (CInt 1));
    empty_text_call;
    assign_stmt "y = 2" "y" (Constant (CInt 2)) ].

Definition spacer_script : list stmt :=
  [ def_stmt "def main(): ..." "main" spacer_body ].

(** A script whose [main] alternates prose and code. *)
Definition mixed_body : list stmt :=
  [ expr_stmt "text('A')" (call_of "text" [lit "A"]);
    expr_stmt "text('B')" (call_of "text" [lit "B"]);
    assign_stmt "x = 1" "x" (Constant (CInt 1));
    assign_stmt "y = 2" "y" (Constant (CInt 2));
    expr_stmt "text('C')" (call_of "text" [lit "C"]) ].

Definition mixed_script : list stmt :=
  [ def_stmt "def main(): ..." "main" mixed_body ].

(** A module that binds the same name to two references. *)
Definition first_paper : stmt :=
  reference_stmt "paper = Reference(title='First', url='https://one.org')" "paper"
    [Keyword (Some "title") (lit "First"); Keyword (Some "url") (lit "https://one.org")].

Definition second_paper : stmt :=
  reference_stmt "paper = Reference(title='Second', url='https://two.org')" "paper"
    [Keyword (Some "title") (lit "Second"); Keyword (Some "url") (lit "https://two.org")].

Definition rebinding_script : list stmt := [first_paper; second_paper].

(** A module with a reference without title, an arXiv reference and a
    reference without url. *)
Definition untitled_stmt : stmt :=
  reference_stmt "notes = Reference(url='https://n.org')" "notes"
    [Keyword (Some "url") (lit "https://n.org")].

Definition arxiv_stmt : stmt :=
  Stmt (Some "adam = arxiv_reference('https://arxiv.org/abs/1412.6980')")
    (Assign [Name "adam"]
       (Call (Name "arxiv_reference") [lit "https://arxiv.org/abs/1412.6980"] [])).

Definition no_url_stmt : stmt :=
  reference_stmt "book = Reference(title='Book')" "book"
    [Keyword (Some "title") (lit "Book")].

Definition references_script : list stmt :=
  [first_paper; untitled_stmt; arxiv_stmt; no_url_stmt].

(** A module that defines [lecture_a] twice. *)
Definition lecture_one : list stmt :=
  [ expr_stmt "text('one')" (call_of "text" [lit "one"]) ].

Definition lecture_two : list stmt :=
  [ expr_stmt "text('two')" (call_of "text" [lit "two"]) ].

Definition redefined_script : list stmt :=
  [ def_stmt "def lecture_a(): text('one')" "lecture_a" lecture_one;
    def_stmt "def lecture_a(): text('two')" "lecture_a" lecture_two ].

(** A script whose [main] calls itself after a line of prose. *)
Definition looping_body : list stmt :=
  [ expr_stmt "text('again')" (call_of "text" [lit "again"]);
    expr_stmt "main()" (call_of "main" []) ].

Definition looping_script : list stmt :=
  [ def_stmt "def main(): ..." "main" looping_body ].

(** A script that shows a remote image, runs a shell command and links
    to a reference in three ways. *)
Definition remote_image : call :=
  mkCall "image" [lit "https://x.org/a.png"] [Keyword (Some "width") (Constant (CInt 300))].

Definition local_image : call := mkCall "image" [lit "figures/a.png"] [].

Definition shell_stmt : stmt :=
  expr_stmt "system_text(['ls'])" (call_of "system_text" [OtherExpr]).

Definition paper_text : call := mkCall "text" [Name "paper"] [].
Definition paper_x_link : call := mkCall "x_link" [Name "paper"] [].
Definition paper_named_link : call := mkCall "named_link" [Name "paper"; Name "paper"] [].

(** A host that holds one image file and knows no type for it. *)
Definition one_image_host : Host :=
  {| repr := fun s => "'" +:+ s +:+ "'";
     read_image := fun path =>
       if String.eqb path "figures/a.png" then Some ("QUJD", None) else None |}.

(** A reference whose url is computed. *)
Definition computed_reference : stmt :=
  reference_assignment (Some "site = Reference(title='Site', url=BASE + '/x')")
    [Name "site"] "Reference" []
    [Keyword (Some "title") (lit "Site"); Keyword (Some "url") OtherExpr].

(* ===================================================================== *)
(** ** reference.py: equality and join *)
(* ===================================================================== *)

Module RefPyFacts.
Import RefPy.

Lemma eqb_opt_str_eq (a b : option string) : eqb_opt_str a b = true <-> a = b.
Proof.
  destruct a as [x|], b as [y|]; simpl; try (split; congruence).
  rewrite String.eqb_eq. split; congruence.
Qed.

Lemma eqb_list_str_eq (a b : list string) : eqb_list_str a b = true <-> a = b.
Proof.
  revert b. induction a as [|x a IH]; intros [|y b]; simpl; try (split; congruence).
  rewrite andb_true_iff, String.eqb_eq, IH. split.
  - intros [-> ->]. reflexivity.
  - intros E. inversion E. auto.
Qed.

Lemma eqb_opt_list_eq (a b : option (list string)) : eqb_opt_list a b = true <-> a = b.
Proof.
  destruct a as [x|], b as [y|]; simpl; try (split; congruence).
  rewrite eqb_list_str_eq. split; congruence.
Qed.

(** C8. Two [Reference] values compare equal exactly when each of the
    seven fields (title, authors, organization, date, url, description,
    notes) is equal, which is the same as the two records being the
    same value; [join] puts one newline between consecutive arguments
    and none around them, so it returns a single argument unchanged
    (and the empty string for no argument). *)
Theorem reference_equality_and_join :
  (forall a b : Reference,
      Reference_eq a b = true <->
      (title a = title b /\ authors a = authors b
       /\ organization a = organization b /\ date a = date b
       /\ url a = url b /\ description a = description b
       /\ notes a = notes b))
  /\ (forall a b : Reference, Reference_eq a b = true <-> a = b)
  /\ join [] = ""
  /\ (forall s : string, join [s] = s)
  /\ (forall (s t : string) (rest : list string),
         join (s :: t :: rest) = s +:+ NL +:+ join (t :: rest)).
Proof.
  assert (fields : forall a b : Reference,
             Reference_eq a b = true <->
             (title a = title b /\ authors a = authors b
              /\ organization a = organization b /\ date a = date b
              /\ url a = url b /\ description a = description b
              /\ notes a = notes b)).
  { intros a b. unfold Reference_eq.
    rewrite !andb_true_iff, !eqb_opt_str_eq, eqb_opt_list_eq. tauto. }
  split; [exact fields|]. split.
  - intros a b. rewrite fields. split.
    + destruct a, b; simpl. intros (-> & -> & -> & -> & -> & -> & ->). reflexivity.
    + intros ->. tauto.
  - repeat split; reflexivity.
Qed.

End RefPyFacts.

(* ===================================================================== *)
(** ** Text lemmas *)
(* ===================================================================== *)

Lemma append_cons (c : ascii) (s t : string) : String c s +:+ t = String c (s +:+ t).
Proof. reflexivity. Qed.

Lemma append_nil_r (s : string) : s +:+ "" = s.
Proof.
  induction s as [|c s IH]; [reflexivity|].
  now rewrite append_cons, IH.
Qed.

Lemma append_assoc (a b c : string) : (a +:+ b) +:+ c = a +:+ (b +:+ c).
Proof.
  induction a as [|x a IH]; [reflexivity|].
  now rewrite !append_cons, IH.
Qed.

Lemma truthy_true (s : string) : Py.truthy s = true <-> s <> "".
Proof. destruct s; simpl; split; congruence. Qed.

(* ===================================================================== *)
(** ** Flushing: effect and frame *)
(* ===================================================================== *)

(** C9. [flush_markdown] and [flush_code] return the converter unchanged
    when their own buffer is empty; when it is not, they append exactly
    one cell, of their own type, built from the buffer; afterwards their
    own buffer is empty, and the other buffer, the cells emitted before
    (a prefix of the new list) and the read-only fields are as they
    were. *)
Theorem flush_effect_and_frame (self : LectureConverter) :
  (current_markdown self = [] -> flush_markdown self = self)
  /\ (current_markdown self <> [] ->
      cells (flush_markdown self)
      = cells self ++ [markdown_cell (current_markdown self)])
  /\ (exists emitted,
         cells (flush_markdown self) = cells self ++ emitted
         /\ length emitted <= 1
         /\ Forall (fun c => cell_kind c = markdown) emitted)
  /\ current_markdown (flush_markdown self) = []
  /\ current_code (flush_markdown self) = current_code self
  /\ (tree (flush_markdown self), functions (flush_markdown self),
      references (flush_markdown self))
     = (tree self, functions self, references self)
  /\ (current_code self = [] -> flush_code self = self)
  /\ (current_code self <> [] ->
      cells (flush_code self) = cells self ++ [code_cell (current_code self)])
  /\ (exists emitted,
         cells (flush_code self) = cells self ++ emitted
         /\ length emitted <= 1
         /\ Forall (fun c => cell_kind c = code) emitted)
  /\ current_code (flush_code self) = []
  /\ current_markdown (flush_code self) = current_markdown self
  /\ (tree (flush_code self), functions (flush_code self),
      references (flush_code self))
     = (tree self, functions self, references self).
Proof.
  destruct self as [t f r c md cd]; unfold flush_markdown, flush_code; simpl.
  repeat apply conj.
  - intros ->. reflexivity.
  - destruct md; [congruence | reflexivity].
  - destruct md as [|m md].
    + exists []. simpl. rewrite app_nil_r. repeat split; [lia | constructor].
    + exists [markdown_cell (m :: md)]. simpl. repeat split; [lia | repeat constructor].
  - destruct md; reflexivity.
  - destruct md; reflexivity.
  - destruct md; reflexivity.
  - intros ->. reflexivity.
  - destruct cd; [congruence | reflexivity].
  - destruct cd as [|l cd].
    + exists []. simpl. rewrite app_nil_r. repeat split; [lia | constructor].
    + exists [code_cell (l :: cd)]. simpl. repeat split; [lia | repeat constructor].
  - destruct cd; reflexivity.
  - destruct cd; reflexivity.
  - destruct cd; reflexivity.
Qed.

(* ===================================================================== *)
(** ** The reference table *)
(* ===================================================================== *)

(** C10. An entry scanned from the input file is the entry of the table,
    whatever [references.py] holds under that name; a name the input
    file gives no entry keeps the entry of [references.py]; and with
    [references.py] missing or unparseable the table is the scan of the
    input file alone. *)
Theorem input_file_shadows_references_py (refs_py : references_py) (parsed : list stmt) :
  (forall name entry,
      _scan_for_refs parsed !! name = Some entry ->
      load_references refs_py parsed !! name = Some entry)
  /\ (forall body name,
         _scan_for_refs parsed !! name = None ->
         load_references (Parsed body) parsed !! name = _scan_for_refs body !! name)
  /\ load_references Missing parsed = _scan_for_refs parsed
  /\ load_references Unparseable parsed = _scan_for_refs parsed.
Proof.
  unfold load_references. repeat apply conj.
  - intros name entry Hin. now apply lookup_union_Some_l.
  - intros body name Hout.
    rewrite lookup_union_r by exact Hout.
    now rewrite (right_id_L ∅ (∪)).
  - apply (right_id_L ∅ (∪)).
  - apply (right_id_L ∅ (∪)).
Qed.

(* ===================================================================== *)
(** ** Resolving arguments *)
(* ===================================================================== *)

Lemma fold_render_part (values : list expr) (res : string) :
  fold_left render_part values res = res +:+ foldr String.append "" (map part_text values).
Proof.
  revert res. induction values as [|part values IH]; intros res; simpl.
  - now rewrite append_nil_r.
  - rewrite IH. destruct part as [c| | | |v| | |]; simpl;
      try (now rewrite append_assoc); try reflexivity.
    destruct v; now rewrite append_assoc.
Qed.

(** C6. When the argument that [get_arg_value] selects is an
    interpolated string, the result is the concatenation, in order, of
    the texts of its parts: a constant part verbatim, an interpolated
    bare name [x] as the text of an opening brace, [x] and a closing
    brace, any other interpolated expression as the text of three dots
    between braces. *)
Theorem fstring_resolution (self : LectureConverter) (node : call) (arg_index : nat)
    (kwarg_name : option string) (context_body : option (list stmt))
    (values : list expr) :
  select_arg node arg_index kwarg_name = Some (JoinedStr values) ->
  get_arg_value self node arg_index kwarg_name context_body
  = VStr (foldr String.append "" (map part_text values)).
Proof.
  intros Hsel. unfold get_arg_value. rewrite Hsel.
  now rewrite fold_render_part.
Qed.

Lemma fstring_resolution_witness :
  select_arg loss_call 0 None = Some (JoinedStr loss_parts)
  /\ get_arg_value (init Missing greeting_script) loss_call 0 None (Some greeting_body)
     = VStr "Loss is {loss} after {...} steps".
Proof.
  split; [reflexivity|].
  exact (fstring_resolution (init Missing greeting_script) loss_call 0 None
           (Some greeting_body) loss_parts eq_refl).
Defined.

(** *** Names bound in the enclosing body *)

Lemma scan_bindings_skip (name : string) (s : stmt) (rest : list stmt) :
  settles name s = false ->
  scan_bindings name (s :: rest) = scan_bindings name rest.
Proof.
  destruct s as [seg n]. unfold settles, assigns_constant, assigns_policy_run. simpl.
  destruct n as [ | targets v | | | | | ]; try reflexivity.
  destruct targets as [|t [|t' ts]]; [reflexivity | | destruct t; reflexivity].
  destruct t as [ |target| | | | | | ]; try reflexivity.
  destruct (String.eqb target name); [|reflexivity].
  destruct v as [c| |f args kws| | | | | ]; try reflexivity; try discriminate.
  destruct f as [ |g| | | | | | ]; try reflexivity.
  simpl. destruct (String.eqb g "run_policy_gradient"); [discriminate | reflexivity].
Qed.

Lemma scan_bindings_unsettled (name : string) (front rest : list stmt) :
  Forall (fun s => settles name s = false) front ->
  scan_bindings name (front ++ rest) = scan_bindings name rest.
Proof.
  induction 1 as [|s front Hs _ IH]; [reflexivity|].
  rewrite <- app_comm_cons, scan_bindings_skip by exact Hs. exact IH.
Qed.

Lemma scan_bindings_constant (name : string) (s : stmt) (rest : list stmt) (v : string) :
  assigns_constant name s = Some v ->
  scan_bindings name (s :: rest) = v.
Proof.
  destruct s as [seg n]. unfold assigns_constant. simpl.
  destruct n as [ | targets e | | | | | ]; try discriminate.
  destruct targets as [|t [|t' ts]]; try discriminate;
    destruct t as [ |target| | | | | | ]; try discriminate;
    destruct e as [c| | | | | | | ]; try discriminate.
  destruct (String.eqb target name); [congruence | discriminate].
Qed.

Lemma scan_bindings_policy_run (name : string) (s : stmt) (rest : list stmt) :
  assigns_policy_run name s = true ->
  scan_bindings name (s :: rest) = name.
Proof.
  destruct s as [seg n]. unfold assigns_policy_run. simpl.
  destruct n as [ | targets e | | | | | ]; try discriminate.
  destruct targets as [|t [|t' ts]]; try discriminate;
    destruct t as [ |target| | | | | | ]; try discriminate;
    destruct e as [ | |f args kws| | | | | ]; try discriminate.
  destruct f as [ |g| | | | | | ]; try discriminate.
  destruct (String.eqb target name); [|discriminate].
  simpl. intros ->. reflexivity.
Qed.

Lemma Forall_rev_unsettled (name : string) (l : list stmt) :
  Forall (fun s => settles name s = false) l ->
  Forall (fun s => settles name s = false) (rev l).
Proof.
  apply List.Forall_rev.
Qed.

(** C7, as the program has it.  For an argument that is a bare name
    outside the reference table: the result is the string value of the
    constant that the last single-target constant assignment of the name
    in the body binds, provided no single-target assignment of a
    [run_policy_gradient] call to the name follows it; it is the name
    itself when the last settling assignment is such a call, when the
    body has no settling assignment, and when there is no body. *)
Theorem local_binding_resolution (self : LectureConverter) (node : call)
    (arg_index : nat) (kwarg_name : option string) (id : string) :
  select_arg node arg_index kwarg_name = Some (Name id) ->
  references self !! id = None ->
  (forall pre s post v,
      assigns_constant id s = Some v ->
      Forall (fun s' => settles id s' = false) post ->
      get_arg_value self node arg_index kwarg_name (Some (pre ++ s :: post)) = VStr v)
  /\ (forall pre s post,
         assigns_policy_run id s = true ->
         Forall (fun s' => settles id s' = false) post ->
         get_arg_value self node arg_index kwarg_name (Some (pre ++ s :: post)) = VStr id)
  /\ (forall body,
         Forall (fun s => settles id s = false) body ->
         get_arg_value self node arg_index kwarg_name (Some body) = VStr id)
  /\ get_arg_value self node arg_index kwarg_name None = VStr id.
Proof.
  intros Hsel Hout. unfold get_arg_value. rewrite Hsel, Hout.
  repeat apply conj.
  - intros pre s post v Hs Hpost.
    rewrite rev_app_distr. simpl. rewrite <- app_assoc. simpl.
    rewrite scan_bindings_unsettled by now apply Forall_rev_unsettled.
    now rewrite (scan_bindings_constant _ _ _ v).
  - intros pre s post Hs Hpost.
    rewrite rev_app_distr. simpl. rewrite <- app_assoc. simpl.
    rewrite scan_bindings_unsettled by now apply Forall_rev_unsettled.
    now rewrite scan_bindings_policy_run.
  - intros body Hbody.
    rewrite <- (app_nil_r (rev body)).
    now rewrite scan_bindings_unsettled by now apply Forall_rev_unsettled.
  - reflexivity.
Qed.

Lemma local_binding_resolution_witness :
  get_arg_value (init Missing greeting_script) (mkCall "text" [Name "who"] []) 0 None
    (Some greeting_body)
  = VStr "world".
Proof.
  exact (proj1 (local_binding_resolution (init Missing greeting_script)
                  (mkCall "text" [Name "who"] []) 0 None "who" eq_refl eq_refl)
           [] (assign_stmt "who = 'world'" "who" (lit "world"))
           (tl greeting_body) "world" eq_refl
           ltac:(repeat constructor)).
Defined.

(** C7 as stated fails: the body assigns the constant ['Ada'] to [name]
    in a single-target assignment, and it is the only constant ever
    assigned to [name], yet the argument [name] of the later call
    resolves to the name itself, because the assignment of a
    [run_policy_gradient] call stands between them. *)
Lemma policy_run_hides_constant_binding :
  select_arg (mkCall "text" [Name "name"] []) 0 None = Some (Name "name")
  /\ references (init Missing policy_script) !! "name" = None
  /\ nth_error policy_body 0 = Some (assign_stmt "name = 'Ada'" "name" (lit "Ada"))
  /\ assigns_constant "name" (assign_stmt "name = 'Ada'" "name" (lit "Ada")) = Some "Ada"
  /\ List.filter (fun s => match assigns_constant "name" s with Some _ => true | None => false end)
       policy_body
     = [assign_stmt "name = 'Ada'" "name" (lit "Ada")]
  /\ get_arg_value (init Missing policy_script) (mkCall "text" [Name "name"] []) 0 None
       (Some policy_body)
     = VStr "name"
  /\ get_arg_value (init Missing policy_script) (mkCall "text" [Name "name"] []) 0 None
       (Some policy_body)
     <> VStr "Ada".
Proof.
  repeat apply conj; try reflexivity.
  vm_compute. discriminate.
Qed.

(** *** Every url of the reference table is non-empty *)

Lemma bind_targets_urls (ref_title ref_url : string) (targets : list expr)
    (refs : gmap string (string * string)) :
  Py.truthy ref_url = true ->
  urls_nonempty refs ->
  urls_nonempty (bind_targets ref_title ref_url targets refs).
Proof.
  intros Hurl. unfold bind_targets. revert refs.
  induction targets as [|target targets IH]; intros refs Hrefs; simpl; [exact Hrefs|].
  apply IH. destruct target as [ |x| | | | | | ]; try exact Hrefs.
  intros name t u. rewrite lookup_insert.
  destruct (decide (x = name)) as [->|Hne]; simpl.
  - intros [= <- <-]. exact Hurl.
  - apply Hrefs.
Qed.

Lemma scan_stmt_urls (refs : gmap string (string * string)) (s : stmt) :
  urls_nonempty refs -> urls_nonempty (scan_stmt refs s).
Proof.
  intros Hrefs. unfold scan_stmt.
  destruct (node_of s) as [ | targets value | | | | | ]; try exact Hrefs.
  destruct (as_named_call value) as [node|]; [|exact Hrefs].
  destruct (ref_title_url node) as [ref_title ref_url].
  destruct (Py.truthy ref_url) eqn:Hurl; [|exact Hrefs].
  now apply bind_targets_urls.
Qed.

Lemma fold_scan_urls (body : list stmt) (refs : gmap string (string * string)) :
  urls_nonempty refs -> urls_nonempty (fold_left scan_stmt body refs).
Proof.
  revert refs. induction body as [|s body IH]; intros refs Hrefs; simpl; [exact Hrefs|].
  apply IH. now apply scan_stmt_urls.
Qed.

Lemma scan_for_refs_urls (body : list stmt) : urls_nonempty (_scan_for_refs body).
Proof.
  apply fold_scan_urls. intros name t u. rewrite lookup_empty. discriminate.
Qed.

Lemma union_urls (a b : gmap string (string * string)) :
  urls_nonempty a -> urls_nonempty b -> urls_nonempty (a ∪ b).
Proof.
  intros Ha Hb name t u. rewrite lookup_union_Some_raw.
  intros [Hin|[_ Hin]]; [now apply (Ha name t u) | now apply (Hb name t u)].
Qed.

Lemma load_references_urls (refs_py : references_py) (parsed : list stmt) :
  urls_nonempty (load_references refs_py parsed).
Proof.
  unfold load_references. apply union_urls; [apply scan_for_refs_urls|].
  destruct refs_py; try (intros name t u; rewrite lookup_empty; discriminate).
  apply union_urls; [apply scan_for_refs_urls|].
  intros name t u. rewrite lookup_empty. discriminate.
Qed.

Lemma get_arg_value_ref (self : LectureConverter) (node : call) (arg_index : nat)
    (kwarg_name : option string) (context_body : option (list stmt)) (t u : string) :
  get_arg_value self node arg_index kwarg_name context_body = VRef t u ->
  exists id, references self !! id = Some (t, u).
Proof.
  unfold get_arg_value.
  destruct (select_arg node arg_index kwarg_name) as [[c|id| | | | | | ]|]; try discriminate.
  destruct (references self !! id) as [[t' u']|] eqn:Hid.
  - intros [= <- <-]. now exists id.
  - destruct context_body; discriminate.
Qed.

Section Links.

Context `{Host}.

(** C4. For a [link] call, with the table that [load_references]
    builds:
    - a title and a url that both resolve to strings, the url non-empty,
      give the Markdown link of the two;
    - a title argument that names a reference gives the link of the
      reference's title and url;
    - with the url absent or empty, a title string that is a key of the
      table gives the link of that entry's title and url;
    - with the url absent or empty and the title string no key of the
      table, the result is the title alone. *)
Theorem link_formatting (refs_py : references_py) (parsed : list stmt)
    (self : LectureConverter) (node : call) (context_body : option (list stmt)) :
  references self = load_references refs_py parsed ->
  func_id node = "link" ->
  (forall t u,
      get_arg_value self node 0 (Some "title") context_body = VStr t ->
      get_arg_value self node 1 (Some "url") context_body = VStr u ->
      u <> "" ->
      format_content_call self node context_body = "[" +:+ t +:+ "](" +:+ u +:+ ")")
  /\ (forall t u,
         get_arg_value self node 0 (Some "title") context_body = VRef t u ->
         format_content_call self node context_body = "[" +:+ t +:+ "](" +:+ u +:+ ")")
  /\ (forall name t u,
         get_arg_value self node 0 (Some "title") context_body = VStr name ->
         get_arg_value self node 1 (Some "url") context_body = VStr "" ->
         references self !! name = Some (t, u) ->
         format_content_call self node context_body = "[" +:+ t +:+ "](" +:+ u +:+ ")")
  /\ (forall t,
         get_arg_value self node 0 (Some "title") context_body = VStr t ->
         get_arg_value self node 1 (Some "url") context_body = VStr "" ->
         references self !! t = None ->
         format_content_call self node context_body = t).
Proof.
  intros Hrefs Hlink.
  assert (Hurls : urls_nonempty (references self))
    by (rewrite Hrefs; apply load_references_urls).
  unfold format_content_call. rewrite Hlink.
  change (String.eqb "link" "text") with false.
  change (String.eqb "link" "link") with true. cbv iota.
  repeat apply conj.
  - intros t u -> -> Hu. apply truthy_true in Hu.
    simpl. rewrite Hu. simpl. now rewrite Hu.
  - intros t u Harg. rewrite Harg.
    destruct (get_arg_value_ref _ _ _ _ _ _ _ Harg) as [id Hid].
    apply Hurls in Hid. simpl. rewrite Hid. simpl. now rewrite Hid.
  - intros name t u -> -> Hname. simpl. rewrite Hname.
    apply Hurls in Hname. simpl. now rewrite Hname.
  - intros t -> -> Hout. simpl. now rewrite Hout.
Qed.

End Links.

Lemma link_formatting_witness :
  format_content_call (H := plain_host) (init Missing links_script) link_two
    (Some links_body)
  = "[Stanford](https://stanford.edu)"
  /\ format_content_call (H := plain_host) (init Missing links_script) link_ref
       (Some links_body)
     = "[Attention](https://a.org)"
  /\ format_content_call (H := plain_host) (init Missing links_script) link_key
       (Some links_body)
     = "[Attention](https://a.org)"
  /\ format_content_call (H := plain_host) (init Missing links_script) link_plain
       (Some links_body)
     = "plain words".
Proof.
  repeat apply conj.
  - exact (proj1 (link_formatting (H := plain_host) Missing links_script
                    (init Missing links_script) link_two (Some links_body)
                    eq_refl eq_refl)
             "Stanford" "https://stanford.edu" eq_refl eq_refl ltac:(discriminate)).
  - exact (proj1 (proj2 (link_formatting (H := plain_host) Missing links_script
                    (init Missing links_script) link_ref (Some links_body)
                    eq_refl eq_refl))
             "Attention" "https://a.org" ltac:(vm_compute; reflexivity)).
  - exact (proj1 (proj2 (proj2 (link_formatting (H := plain_host) Missing links_script
                    (init Missing links_script) link_key (Some links_body)
                    eq_refl eq_refl)))
             "paper" "Attention" "https://a.org" eq_refl eq_refl
             ltac:(vm_compute; reflexivity)).
  - exact (proj2 (proj2 (proj2 (link_formatting (H := plain_host) Missing links_script
                    (init Missing links_script) link_plain (Some links_body)
                    eq_refl eq_refl)))
             "plain words" eq_refl eq_refl ltac:(vm_compute; reflexivity)).
Defined.

(* ===================================================================== *)
(** ** Classifying statements *)
(* ===================================================================== *)

Lemma add_markdown_nil (self : LectureConverter) : add_markdown [] self = self.
Proof. destruct self. unfold add_markdown, with_markdown. simpl. now rewrite app_nil_r. Qed.

Lemma add_code_nil (self : LectureConverter) : add_code [] self = self.
Proof. destruct self. unfold add_code, with_code. simpl. now rewrite app_nil_r. Qed.

Section Classification.

Context `{Host}.

Lemma format_content_call_frame (a b : LectureConverter) (node : call)
    (context_body : option (list stmt)) :
  references a = references b ->
  format_content_call a node context_body = format_content_call b node context_body.
Proof. destruct a, b. simpl. intros ->. reflexivity. Qed.

Lemma role_of_frame (a b : LectureConverter) (body : list stmt) (s : stmt) :
  references a = references b -> functions a = functions b ->
  role_of a body s = role_of b body s.
Proof. destruct a, b. simpl. intros -> ->. reflexivity. Qed.

Lemma act_frame (r : role) (self : LectureConverter) :
  references (act r self) = references self /\ functions (act r self) = functions self.
Proof.
  destruct self as [t f rf c md cd], r; simpl;
    unfold flush_code, flush_markdown; simpl; destruct cd, md; simpl; auto.
Qed.

Lemma tuple_markdown_calls (self : LectureConverter) (body : list stmt)
    (elts : list expr) (acc : list string) :
  tuple_markdown self body elts acc
  = match content_calls elts with
    | Some calls =>
        Some (acc ++ map Py.strip
                       (List.filter Py.truthy
                          (map (fun node => format_content_call self node (Some body)) calls)))
    | None => None
    end.
Proof.
  revert acc. induction elts as [|el elts IH]; intros acc; simpl.
  - now rewrite app_nil_r.
  - destruct el as [ | |f args kws| | | | | ]; try reflexivity.
    destruct f as [ |g| | | | | | ]; try reflexivity. simpl.
    destruct (in_names g CONTENT_FUNCTIONS); [|reflexivity].
    rewrite IH. destruct (content_calls elts) as [calls|]; [|reflexivity].
    simpl. destruct (Py.truthy _); simpl; [|reflexivity].
    now rewrite <- app_assoc.
Qed.

Lemma emit_code_act (self : LectureConverter) (s : stmt) :
  emit_code self s = act (CodeText (code_entries s)) self.
Proof.
  unfold emit_code, code_entries. simpl.
  destruct (get_source_segment s) as [src|]; [|now rewrite add_code_nil].
  destruct (Py.truthy src); [reflexivity | now rewrite add_code_nil].
Qed.

(** Each iteration of the walk does what the role of its statement
    says. *)
Lemma process_stmt_role
    (recur : list stmt -> LectureConverter -> option LectureConverter)
    (body : list stmt) (self : LectureConverter) (s : stmt) :
  process_stmt recur body self s
  = match role_of self body s with
    | Inline fbody => recur fbody (act (Inline fbody) self)
    | r => Some (act r self)
    end.
Proof.
  unfold process_stmt. rewrite !emit_code_act.
  unfold role_of, content_call_of, content_tuple_of, inlined_body.
  destruct s as [seg n]. simpl.
  destruct n as [value| | | | | | ]; try reflexivity.
  destruct value as [ | |f args kws| | |elts| | ]; try reflexivity.
  - destruct f as [ |g| | | | | | ]; try reflexivity. simpl.
    destruct (in_names g CONTENT_FUNCTIONS) eqn:Hg.
    + unfold prose_entries.
      rewrite (format_content_call_frame (flush_code self) self)
        by apply (act_frame (Prose []) self).
      destruct (Py.truthy _); [reflexivity|].
      now rewrite add_markdown_nil.
    + destruct (Py.dict_get g (functions self)); reflexivity.
  - simpl. rewrite tuple_markdown_calls.
    destruct (content_calls elts) as [calls|]; reflexivity.
Qed.

(** C1, as the program has it.  An expression statement that is a bare
    call to a content function is prose: the code buffer is flushed, the
    formatted result is appended to the markdown buffer when it is not
    empty, and nothing of the statement reaches the code buffer.  A tuple
    statement whose elements are all content calls is prose as well and
    appends one entry.  A bare call to a function that the file defines
    is replaced by the walk of that function's body, after both buffers
    are flushed.  Every other statement flushes the markdown buffer and
    is appended to the code buffer as its source text and a newline,
    when it has a non-empty source text. *)
Theorem statement_classification
    (recur : list stmt -> LectureConverter -> option LectureConverter)
    (body : list stmt) (self : LectureConverter) (s : stmt) :
  (forall node,
      content_call_of s = Some node ->
      exists self',
        process_stmt recur body self s = Some self'
        /\ current_markdown self'
           = current_markdown self
             ++ (if Py.truthy (format_content_call self node (Some body))
                 then [format_content_call self node (Some body)] else [])
        /\ current_code self' = []
        /\ cells self' = cells (flush_code self))
  /\ (forall calls,
         content_tuple_of s = Some calls ->
         exists self',
           process_stmt recur body self s = Some self'
           /\ current_markdown self'
              = current_markdown self ++ [tuple_entry self body calls]
           /\ current_code self' = []
           /\ cells self' = cells (flush_code self))
  /\ (forall fbody,
         content_call_of s = None ->
         inlined_body self s = Some fbody ->
         process_stmt recur body self s
         = recur fbody (flush_markdown (flush_code self)))
  /\ (content_call_of s = None ->
      content_tuple_of s = None ->
      inlined_body self s = None ->
      exists self',
        process_stmt recur body self s = Some self'
        /\ current_code self'
           = current_code self
             ++ match get_source_segment s with
                | Some src => if Py.truthy src then [src +:+ NL] else []
                | None => []
                end
        /\ current_markdown self' = []
        /\ cells self' = cells (flush_markdown self)).
Proof.
  rewrite process_stmt_role. unfold role_of. repeat apply conj.
  - intros node ->. eexists. split; [reflexivity|].
    destruct self as [t f r c md cd]. unfold prose_entries, flush_code. simpl.
    destruct cd; simpl; auto.
  - intros calls Htuple.
    assert (content_call_of s = None) as ->.
    { destruct s as [seg n]. unfold content_tuple_of, content_call_of in *. simpl in *.
      destruct n as [value| | | | | | ]; try reflexivity.
      destruct value; try reflexivity; discriminate. }
    rewrite Htuple. eexists. split; [reflexivity|].
    destruct self as [t f r c md cd]. unfold flush_code. simpl.
    destruct cd; simpl; auto.
  - intros fbody -> Hin.
    assert (content_tuple_of s = None) as ->.
    { destruct s as [seg n]. unfold content_tuple_of, inlined_body in *. simpl in *.
      destruct n as [value| | | | | | ]; try reflexivity.
      destruct value; try reflexivity; discriminate. }
    now rewrite Hin.
  - intros -> -> ->. eexists. split; [reflexivity|].
    destruct self as [t f r c md cd]. unfold code_entries, flush_markdown. simpl.
    destruct md; simpl; auto.
Qed.

End Classification.

(** C1 as stated fails: [intro()] is an expression statement that is no
    call to a content function and has the source text [intro()], yet
    walking it leaves the code buffer empty and puts the prose of
    [intro]'s body into the markdown buffer; the notebook of the script
    holds that prose and the one line of code that follows, and the text
    of the call nowhere. *)
Lemma inlined_call_is_not_code :
  content_call_of intro_call = None
  /\ get_source_segment intro_call = Some "intro()"
  /\ option_map current_code
       (process_stmt (H := plain_host) (process_body (H := plain_host) 1)
          intro_main_body (init Missing intro_script) intro_call)
     = Some []
  /\ option_map current_markdown
       (process_stmt (H := plain_host) (process_body (H := plain_host) 1)
          intro_main_body (init Missing intro_script) intro_call)
     = Some ["Welcome"]
  /\ convert (H := plain_host) 2 (init Missing intro_script)
     = Some [mkCell markdown ["Welcome" +:+ NL]; mkCell code ["x = 1" +:+ NL]].
Proof. repeat apply conj; vm_compute; reflexivity. Qed.

(* ===================================================================== *)
(** ** Runs of like statements become cells *)
(* ===================================================================== *)

Lemma runs_prose_head (e : list string) (items : list role) :
  exists e' more, runs (Prose e :: items) = Prose e' :: more.
Proof.
  simpl. destruct (runs items) as [|[b|b|b] more]; eauto.
Qed.

Lemma runs_code_head (e : list string) (items : list role) :
  exists e' more, runs (CodeText e :: items) = CodeText e' :: more.
Proof.
  simpl. destruct (runs items) as [|[b|b|b] more]; eauto.
Qed.

(** [runs] gives maximal runs: it keeps every contribution, in order, and
    no two neighbours of its result are alike. *)
Lemma runs_entries (items : list role) :
  flat_map entries_of (runs items) = flat_map entries_of items.
Proof.
  induction items as [|it items IH]; [reflexivity|].
  simpl. rewrite <- IH.
  destruct it as [a|a|fb], (runs items) as [|[b|b|b] more]; simpl;
    rewrite ?app_assoc; reflexivity.
Qed.

Lemma alternating_head (a b : role) (more : list role) :
  like a b = true ->
  alternating (b :: more) = true -> alternating (a :: more) = true.
Proof.
  destruct more as [|c more]; [reflexivity|]. simpl.
  intros Hab Halt. apply andb_true_iff in Halt as [Hbc Hrest].
  rewrite Hrest, andb_true_r.
  destruct a, b, c; simpl in *; congruence.
Qed.

Lemma runs_alternating (items : list role) : alternating (runs items) = true.
Proof.
  induction items as [|it items IH]; [reflexivity|].
  simpl. destruct it as [a|a|fb], (runs items) as [|[b|b|b] more];
    try reflexivity; try exact IH;
    try (now apply (alternating_head _ (Prose b)));
    try (now apply (alternating_head _ (CodeText b))).
Qed.

Lemma cells_prose_merge (a b : list string) (items : list role) :
  cells_of_runs (Prose a :: Prose b :: items) = cells_of_runs (Prose (a ++ b) :: items).
Proof.
  unfold cells_of_runs. simpl.
  destruct (runs items) as [|[c|c|c] more]; simpl; try reflexivity.
  now rewrite app_assoc.
Qed.

Lemma cells_code_merge (a b : list string) (items : list role) :
  cells_of_runs (CodeText a :: CodeText b :: items)
  = cells_of_runs (CodeText (a ++ b) :: items).
Proof.
  unfold cells_of_runs. simpl.
  destruct (runs items) as [|[c|c|c] more]; simpl; try reflexivity.
  now rewrite app_assoc.
Qed.

Lemma cells_prose_nil (items : list role) :
  cells_of_runs (Prose [] :: items) = cells_of_runs items.
Proof.
  unfold cells_of_runs. simpl.
  destruct (runs items) as [|[c|c|c] more]; reflexivity.
Qed.

Lemma cells_code_nil (items : list role) :
  cells_of_runs (CodeText [] :: items) = cells_of_runs items.
Proof.
  unfold cells_of_runs. simpl.
  destruct (runs items) as [|[c|c|c] more]; reflexivity.
Qed.

Lemma cells_code_then_prose (a e : list string) (items : list role) :
  cells_of_runs (CodeText a :: Prose e :: items)
  = run_cell (CodeText a) ++ cells_of_runs (Prose e :: items).
Proof.
  unfold cells_of_runs.
  destruct (runs_prose_head e items) as (e' & more & Hr).
  change (runs (CodeText a :: Prose e :: items))
    with (match runs (Prose e :: items) with
          | CodeText b :: more => CodeText (a ++ b) :: more
          | merged => CodeText a :: merged
          end).
  rewrite Hr. reflexivity.
Qed.

Lemma cells_prose_then_code (a e : list string) (items : list role) :
  cells_of_runs (Prose a :: CodeText e :: items)
  = run_cell (Prose a) ++ cells_of_runs (CodeText e :: items).
Proof.
  unfold cells_of_runs.
  destruct (runs_code_head e items) as (e' & more & Hr).
  change (runs (Prose a :: CodeText e :: items))
    with (match runs (CodeText e :: items) with
          | Prose b :: more => Prose (a ++ b) :: more
          | merged => Prose a :: merged
          end).
  rewrite Hr. reflexivity.
Qed.

Lemma act_one_buffer (r : role) (self : LectureConverter) : one_buffer (act r self).
Proof.
  destruct self as [t f rf c md cd], r; unfold one_buffer, flush_code, flush_markdown;
    simpl; destruct cd, md; simpl; auto.
Qed.

(** One step of the walk, seen from the cells that will come out. *)
Lemma act_cells (r : role) (self : LectureConverter) (items : list role) :
  one_buffer self ->
  cells (act r self) ++ cells_of_runs (open_run (act r self) ++ items)
  = cells self ++ cells_of_runs (open_run self ++ r :: items).
Proof.
  destruct self as [t f rf c md cd]. unfold one_buffer, open_run. simpl.
  intros Hone. destruct r as [e|e|fb]; simpl.
  - unfold flush_code. simpl.
    destruct cd as [|l cd]; simpl.
    + destruct md as [|m md]; simpl.
      * destruct e; simpl; [now rewrite cells_prose_nil | reflexivity].
      * now rewrite cells_prose_merge.
    + destruct Hone as [->|Hcd]; [|discriminate]. simpl.
      rewrite cells_code_then_prose. simpl. rewrite <- app_assoc. simpl.
      destruct e; simpl; [now rewrite cells_prose_nil | reflexivity].
  - unfold flush_markdown. simpl.
    destruct md as [|m md]; simpl.
    + destruct cd as [|l cd]; simpl.
      * destruct e; simpl; [now rewrite cells_code_nil | reflexivity].
      * now rewrite cells_code_merge.
    + destruct Hone as [Hmd| ->]; [discriminate|]. simpl.
      rewrite cells_prose_then_code. simpl. rewrite <- app_assoc. simpl.
      destruct e; simpl; [now rewrite cells_code_nil | reflexivity].
  - unfold flush_code, flush_markdown, cells_of_runs. simpl.
    destruct cd as [|l cd]; simpl.
    + destruct md as [|m md]; simpl; [reflexivity | now rewrite <- app_assoc].
    + destruct Hone as [->|Hcd]; [|discriminate]. simpl. now rewrite <- app_assoc.
Qed.

Lemma final_flush_cells (self : LectureConverter) :
  one_buffer self ->
  cells (flush_markdown (flush_code self))
  = cells self ++ cells_of_runs (open_run self).
Proof.
  destruct self as [t f rf c md cd].
  unfold one_buffer, open_run, flush_code, flush_markdown, cells_of_runs. simpl.
  intros [-> | ->].
  - destruct cd; simpl; [now rewrite app_nil_r | reflexivity].
  - destruct md; simpl; [now rewrite app_nil_r | reflexivity].
Qed.

Section Runs.

Context `{Host}.

Lemma same_tables_act (r : role) (self self0 : LectureConverter) :
  same_tables self self0 -> same_tables (act r self) self0.
Proof.
  intros [Hr Hf]. destruct (act_frame r self) as [Hr' Hf'].
  split; congruence.
Qed.

Lemma flatten_with_plain (inner : list stmt -> option (list role))
    (self : LectureConverter) (body stmts : list stmt) :
  Forall (fun s => inlined_body self s = None) stmts ->
  flatten_with inner self body stmts = Some (map (role_of self body) stmts).
Proof.
  induction 1 as [|s stmts Hs _ IH]; simpl; [reflexivity|].
  rewrite IH. unfold role_of. rewrite Hs.
  destruct (content_call_of s); [reflexivity|].
  destruct (content_tuple_of s); reflexivity.
Qed.

(** The loop over the statements of a body meets what [flatten_with]
    lists, as soon as the nested walk does. *)
Lemma for_each_follows (self0 : LectureConverter)
    (recur : list stmt -> LectureConverter -> option LectureConverter)
    (inner : list stmt -> option (list role)) (body : list stmt) :
  follows self0 recur inner ->
  follows self0 (for_each (process_stmt recur body))
    (flatten_with inner self0 body).
Proof.
  intros Hrec stmts. induction stmts as [|s stmts IH]; intros self Htab Hone.
  - simpl. exists self. repeat split; try apply Htab; exact Hone.
  - simpl. rewrite process_stmt_role.
    rewrite (role_of_frame self self0) by apply Htab.
    pose proof (same_tables_act (role_of self0 body s) self self0 Htab) as Htab1.
    pose proof (act_one_buffer (role_of self0 body s) self) as Hone1.
    pose proof (fun items => act_cells (role_of self0 body s) self items Hone) as Hact.
    destruct (role_of self0 body s) as [e|e|fb] eqn:Hrole.
    + specialize (IH _ Htab1 Hone1).
      destruct (flatten_with inner self0 body stmts) as [later|]; [|exact IH].
      destruct IH as (self' & Hrun & Htab' & Hone' & Hcells).
      exists self'. repeat split; try apply Htab'; try exact Hrun; try exact Hone'.
      intros suffix. now rewrite Hcells, Hact.
    + specialize (IH _ Htab1 Hone1).
      destruct (flatten_with inner self0 body stmts) as [later|]; [|exact IH].
      destruct IH as (self' & Hrun & Htab' & Hone' & Hcells).
      exists self'. repeat split; try apply Htab'; try exact Hrun; try exact Hone'.
      intros suffix. now rewrite Hcells, Hact.
    + specialize (Hrec fb _ Htab1 Hone1).
      destruct (inner fb) as [met|]; [|now rewrite Hrec].
      destruct Hrec as (self2 & Hrun2 & Htab2 & Hone2 & Hcells2).
      rewrite Hrun2. specialize (IH _ Htab2 Hone2).
      destruct (flatten_with inner self0 body stmts) as [later|]; [|exact IH].
      destruct IH as (self' & Hrun & Htab' & Hone' & Hcells).
      exists self'. repeat split; try apply Htab'; try exact Hrun; try exact Hone'.
      intros suffix. rewrite Hcells, Hcells2, Hact. simpl.
      now rewrite <- app_assoc.
Qed.

Lemma process_body_follows (self0 : LectureConverter) (depth : nat) :
  follows self0 (process_body depth) (flatten depth self0).
Proof.
  induction depth as [|depth IH].
  - intros fbody self _ _. reflexivity.
  - intros fbody self Htab Hone. simpl.
    exact (for_each_follows self0 _ _ fbody IH fbody self Htab Hone).
Qed.

(** C2, as the program has it.  Walk a body from a converter with at
    most one buffer in use; let the statements met be those of the body
    in order, a bare call to a function of the file standing before the
    statements of that function's body.  When the nesting of such calls
    fits the depth, the walk ends, and after the two final flushes the
    cells emitted are, in order, one cell per maximal run of like
    statements that contributed anything (the open buffer counting as
    the start of the first run, a call to a function of the file ending
    the run before it): a markdown cell for a run of prose statements,
    made of the entries they appended, joined by a blank line and ended
    by a newline; a code cell for a run of other statements, made of
    their source texts, each followed by a newline, concatenated,
    right-stripped and ended by a newline.  A run that contributed
    nothing (prose whose results are all empty, statements without
    source text) gives no cell.  When the nesting does not fit the
    depth the walk yields nothing.  A body without calls to functions of
    the file fits any positive depth, and the statements met are its
    own. *)
Theorem runs_become_cells (depth : nat) (body : list stmt) (self : LectureConverter) :
  current_markdown self = [] \/ current_code self = [] ->
  match flatten depth self body with
  | Some met =>
      exists self',
        process_body depth body self = Some self'
        /\ cells (flush_markdown (flush_code self'))
           = cells self ++ cells_of_runs (open_run self ++ met)
  | None => process_body depth body self = None
  end
  /\ (Forall (fun s => inlined_body self s = None) body ->
      flatten (S depth) self body = Some (map (role_of self body) body)).
Proof.
  intros Hone. split.
  - pose proof (process_body_follows self depth body self (conj eq_refl eq_refl) Hone)
      as Hwalk.
    destruct (flatten depth self body) as [met|]; [|exact Hwalk].
    destruct Hwalk as (self' & Hrun & _ & Hone' & Hcells).
    exists self'. split; [exact Hrun|].
    rewrite final_flush_cells by exact Hone'.
    specialize (Hcells []). now rewrite !app_nil_r in Hcells.
  - intros Hplain. simpl. now apply flatten_with_plain.
Qed.

End Runs.

Lemma runs_become_cells_witness :
  (exists self',
      process_body (H := plain_host) 1 mixed_body (init Missing mixed_script) = Some self'
      /\ cells (flush_markdown (flush_code self'))
         = [ mkCell markdown ["A" +:+ NL +:+ NL +:+ "B" +:+ NL];
             mkCell code ["x = 1" +:+ NL +:+ "y = 2" +:+ NL];
             mkCell markdown ["C" +:+ NL] ])
  /\ (exists self',
         process_body (H := plain_host) 2 intro_main_body (init Missing intro_script)
         = Some self'
         /\ cells (flush_markdown (flush_code self'))
            = [ mkCell markdown ["Welcome" +:+ NL]; mkCell code ["x = 1" +:+ NL] ])
  /\ process_body (H := plain_host) 1 intro_main_body (init Missing intro_script) = None.
Proof.
  repeat apply conj.
  - exact (proj1 (runs_become_cells (H := plain_host) 1 mixed_body
                    (init Missing mixed_script) (or_introl eq_refl))).
  - exact (proj1 (runs_become_cells (H := plain_host) 2 intro_main_body
                    (init Missing intro_script) (or_introl eq_refl))).
  - exact (proj1 (runs_become_cells (H := plain_host) 1 intro_main_body
                    (init Missing intro_script) (or_introl eq_refl))).
Defined.

(** C2 as stated fails: the call [text('')] between the two assignments
    is a maximal run of content-function statements, and the notebook
    holds no markdown cell for it, only the two code cells. *)
Lemma empty_prose_run_has_no_cell :
  content_call_of empty_text_call = Some (mkCall "text" [lit ""] [])
  /\ nth_error spacer_body 1 = Some empty_text_call
  /\ content_call_of (assign_stmt "x = 1" "x" (Constant (CInt 1))) = None
  /\ content_call_of (assign_stmt "y = 2" "y" (Constant (CInt 2))) = None
  /\ convert (H := plain_host) 1 (init Missing spacer_script)
     = Some [mkCell code ["x = 1" +:+ NL]; mkCell code ["y = 2" +:+ NL]].
Proof. repeat apply conj; vm_compute; reflexivity. Qed.

(* ===================================================================== *)
(** ** The entries of the reference table, name by name *)
(* ===================================================================== *)

Lemma bind_targets_lookup (t u : string) (targets : list expr)
    (refs : gmap string (string * string)) (x : string) :
  bind_targets t u targets refs !! x
  = if binds x targets then Some (Py.or_else t x, u) else refs !! x.
Proof.
  unfold bind_targets, binds. revert refs.
  induction targets as [|target targets IH]; intros refs; simpl; [reflexivity|].
  rewrite IH. destruct (existsb _ targets); [now rewrite orb_true_r|].
  rewrite orb_false_r.
  destruct target as [ |n| | | | | | ]; try reflexivity.
  rewrite lookup_insert.
  destruct (String.eqb_spec n x) as [->|Hne].
  - now rewrite decide_True.
  - now rewrite decide_False.
Qed.

Lemma scan_stmt_lookup (refs : gmap string (string * string)) (s : stmt) (x : string) :
  scan_stmt refs s !! x
  = match ref_entry x s with Some p => Some p | None => refs !! x end.
Proof.
  unfold scan_stmt, ref_entry.
  destruct (node_of s) as [ | targets value | | | | | ]; try reflexivity.
  destruct value as [ | |f args kws| | | | | ]; try reflexivity.
  destruct f as [ |g| | | | | | ]; try reflexivity. simpl.
  destruct (ref_title_url (mkCall g args kws)) as [t u].
  destruct (Py.truthy u).
  - rewrite bind_targets_lookup, andb_true_r. now destruct (binds x targets).
  - now rewrite andb_false_r.
Qed.

Lemma fold_scan_lookup (body : list stmt) (refs : gmap string (string * string))
    (x : string) :
  fold_left scan_stmt body refs !! x
  = fold_left
      (fun acc s => match ref_entry x s with Some p => Some p | None => acc end)
      body (refs !! x).
Proof.
  revert refs. induction body as [|s body IH]; intros refs; simpl; [reflexivity|].
  now rewrite IH, scan_stmt_lookup.
Qed.

Lemma scan_for_refs_lookup (body : list stmt) (x : string) :
  _scan_for_refs body !! x = last_entry x body.
Proof.
  unfold _scan_for_refs, last_entry. now rewrite fold_scan_lookup, lookup_empty.
Qed.

Lemma last_entry_split (x : string) (pre post : list stmt) (s : stmt)
    (p : string * string) :
  ref_entry x s = Some p ->
  Forall (fun s' => ref_entry x s' = None) post ->
  last_entry x (pre ++ s :: post) = Some p.
Proof.
  intros Hs Hpost. unfold last_entry. rewrite fold_left_app. simpl. rewrite Hs.
  clear Hs. induction Hpost as [|s' post Hs' _ IH]; simpl; [reflexivity|].
  now rewrite Hs'.
Qed.

Lemma last_entry_none (x : string) (body : list stmt) :
  Forall (fun s => ref_entry x s = None) body -> last_entry x body = None.
Proof.
  unfold last_entry. induction 1 as [|s body Hs _ IH]; simpl; [reflexivity|].
  now rewrite Hs.
Qed.

(** C3, as the program has it.  The table maps a name to the entry of
    the last top-level assignment that gives it one, those of the input
    file coming after those of [references.py].  An assignment gives the
    names among its targets an entry when its right-hand side is a call
    of [Reference] or [arxiv_reference] whose url, as
    [get_arg_value_simple] reads it, is a non-empty constant: for
    [Reference] the pair of the title and the url, the name standing in
    for a title that is absent, empty or no constant; for
    [arxiv_reference] the pair of the name and the url.  A statement
    that gives no name an entry (the url absent, empty or no constant,
    or another statement altogether) leaves the table as it was. *)
Theorem reference_table_entries (refs_py : references_py) (parsed : list stmt)
    (x : string) :
  load_references refs_py parsed !! x
  = match last_entry x parsed with
    | Some p => Some p
    | None =>
        match refs_py with
        | Parsed body => last_entry x body
        | Missing | Unparseable => None
        end
    end
  /\ (forall pre s post p,
         parsed = pre ++ s :: post ->
         ref_entry x s = Some p ->
         Forall (fun s' => ref_entry x s' = None) post ->
         load_references refs_py parsed !! x = Some p)
  /\ (forall seg targets args kws,
         binds x targets = true ->
         ref_entry x (Stmt seg (Assign targets (Call (Name "Reference") args kws)))
         = let title := get_arg_value_simple (mkCall "Reference" args kws) 0 (Some "title") in
           let url := get_arg_value_simple (mkCall "Reference" args kws) 1 (Some "url") in
           if Py.truthy url
           then Some (if Py.truthy title then title else x, url)
           else None)
  /\ (forall seg targets args kws,
         binds x targets = true ->
         ref_entry x (Stmt seg (Assign targets (Call (Name "arxiv_reference") args kws)))
         = let url := get_arg_value_simple (mkCall "arxiv_reference" args kws) 0 None in
           if Py.truthy url then Some (x, url) else None)
  /\ (forall refs s,
         (forall y, ref_entry y s = None) -> scan_stmt refs s = refs).
Proof.
  repeat apply conj.
  - unfold load_references. rewrite lookup_union, !scan_for_refs_lookup.
    destruct (last_entry x parsed) as [p|], refs_py as [ | |body]; simpl;
      rewrite ?lookup_union, ?lookup_empty, ?scan_for_refs_lookup;
      try reflexivity;
      destruct (last_entry x body); reflexivity.
  - intros pre s post p -> Hs Hpost.
    apply lookup_union_Some_l. rewrite scan_for_refs_lookup.
    now apply last_entry_split.
  - intros seg targets args kws Hx. unfold ref_entry. simpl. rewrite Hx.
    destruct (Py.truthy (get_arg_value_simple _ 1 _)); reflexivity.
  - intros seg targets args kws Hx. unfold ref_entry. simpl. rewrite Hx.
    destruct (Py.truthy (get_arg_value_simple _ 0 _)); reflexivity.
  - intros refs s Hs. apply map_eq. intros y.
    now rewrite scan_stmt_lookup, Hs.
Qed.

(** C3 as stated fails: the first assignment binds [paper] to a
    [Reference] with a constant, non-empty url, and the table maps
    [paper] to the pair of the second assignment instead. *)
Lemma rebound_name_keeps_last_reference :
  nth_error rebinding_script 0 = Some first_paper
  /\ ref_entry "paper" first_paper = Some ("First", "https://one.org")
  /\ load_references Missing rebinding_script !! "paper"
     = Some ("Second", "https://two.org")
  /\ load_references Missing rebinding_script !! "paper"
     <> Some ("First", "https://one.org").
Proof.
  repeat apply conj; try (vm_compute; reflexivity).
  vm_compute. discriminate.
Qed.

Example references_script_table :
  load_references Missing references_script !! "paper" = Some ("First", "https://one.org")
  /\ load_references Missing references_script !! "notes" = Some ("notes", "https://n.org")
  /\ load_references Missing references_script !! "adam"
     = Some ("adam", "https://arxiv.org/abs/1412.6980")
  /\ load_references Missing references_script !! "book" = None
  /\ load_references (Parsed references_script) rebinding_script !! "paper"
     = Some ("Second", "https://two.org")
  /\ load_references (Parsed references_script) rebinding_script !! "notes"
     = Some ("notes", "https://n.org").
Proof. repeat apply conj; vm_compute; reflexivity. Qed.

(* ===================================================================== *)
(** ** The entry function *)
(* ===================================================================== *)

Lemma dict_get_set {V} (k k' : string) (v : V) (d : Py.dict V) :
  Py.dict_get k (Py.dict_set k' v d)
  = if String.eqb k' k then Some v else Py.dict_get k d.
Proof.
  induction d as [|[k0 v0] d IH]; simpl.
  - reflexivity.
  - destruct (String.eqb_spec k0 k') as [->|Hne]; simpl.
    + destruct (String.eqb k' k); reflexivity.
    + rewrite IH. destruct (String.eqb_spec k0 k) as [->|Hne'].
      * apply String.eqb_neq in Hne. rewrite String.eqb_sym in Hne. now rewrite Hne.
      * reflexivity.
Qed.

Lemma dict_mem_keys {V} (k : string) (d : Py.dict V) :
  Py.dict_mem k d = true <-> In k (Py.dict_keys d).
Proof.
  unfold Py.dict_mem, Py.dict_keys.
  induction d as [|[k0 v0] d IH]; simpl.
  - split; [discriminate | tauto].
  - destruct (String.eqb_spec k0 k) as [->|Hne].
    + split; auto.
    + rewrite IH. split; [auto | intros [Heq|Hin]; [congruence | exact Hin]].
Qed.

Lemma dict_keys_set {V} (k : string) (v : V) (d : Py.dict V) :
  Py.dict_keys (Py.dict_set k v d)
  = if Py.dict_mem k d then Py.dict_keys d else Py.dict_keys d ++ [k].
Proof.
  unfold Py.dict_mem, Py.dict_keys.
  induction d as [|[k0 v0] d IH]; simpl.
  - reflexivity.
  - destruct (String.eqb_spec k0 k) as [->|Hne]; simpl; [reflexivity|].
    rewrite IH. now destruct (Py.dict_get k d).
Qed.

Lemma find_app_one {A} (P : A -> bool) (l : list A) (a : A) :
  find P (l ++ [a])
  = match find P l with
    | Some b => Some b
    | None => if P a then Some a else None
    end.
Proof.
  induction l as [|b l IH]; simpl; [reflexivity|].
  destruct (P b); [reflexivity | exact IH].
Qed.

Lemma find_none_in {A} (P : A -> bool) (l : list A) (a : A) :
  find P l = None -> In a l -> P a = false.
Proof. intros Hnone Hin. exact (find_none P l Hnone a Hin). Qed.

(** The function table, read through the definitions of the module. *)
Lemma fold_functions_get (name : string) (body : list stmt) (d : Py.dict (list stmt)) :
  Py.dict_get name
    (fold_left
       (fun d s =>
          match node_of s with
          | FunctionDef n fbody => Py.dict_set n fbody d
          | _ => d
          end)
       body d)
  = fold_left
      (fun acc s =>
         match node_of s with
         | FunctionDef n fbody => if String.eqb n name then Some fbody else acc
         | _ => acc
         end)
      body (Py.dict_get name d).
Proof.
  revert d. induction body as [|s body IH]; intros d; simpl; [reflexivity|].
  rewrite IH. destruct (node_of s); try reflexivity.
  now rewrite dict_get_set.
Qed.

Lemma collect_functions_get (name : string) (body : list stmt) :
  Py.dict_get name (collect_functions body) = last_def name body.
Proof. unfold collect_functions, last_def. now rewrite fold_functions_get. Qed.

Lemma fold_functions_find (body : list stmt) (d : Py.dict (list stmt)) :
  find (fun name => Py.startswith name "lecture_")
    (Py.dict_keys
       (fold_left
          (fun d s =>
             match node_of s with
             | FunctionDef n fbody => Py.dict_set n fbody d
             | _ => d
             end)
          body d))
  = match find (fun name => Py.startswith name "lecture_") (Py.dict_keys d) with
    | Some n => Some n
    | None => first_lecture_name body
    end.
Proof.
  revert d. induction body as [|s body IH]; intros d; simpl.
  - now destruct (find _ (Py.dict_keys d)).
  - rewrite IH. destruct (node_of s) as [ | |n fbody| | | | ]; try reflexivity.
    rewrite dict_keys_set. destruct (Py.dict_mem n d) eqn:Hmem.
    + destruct (find _ (Py.dict_keys d)) eqn:Hfind; [reflexivity|].
      apply dict_mem_keys in Hmem.
      now rewrite (find_none_in _ _ n Hfind Hmem).
    + rewrite find_app_one.
      destruct (find _ (Py.dict_keys d)); [reflexivity|].
      now destruct (Py.startswith n "lecture_").
Qed.

Lemma collect_functions_find (body : list stmt) :
  find (fun name => Py.startswith name "lecture_")
    (Py.dict_keys (collect_functions body))
  = first_lecture_name body.
Proof. unfold collect_functions. now rewrite fold_functions_find. Qed.

Lemma entry_point_function (body : list stmt) :
  Py.dict_get (entry_point (collect_functions body)) (collect_functions body)
  = entry_function body.
Proof.
  unfold entry_point, entry_function, Py.dict_mem.
  rewrite collect_functions_find, !collect_functions_get.
  destruct (last_def "main" body) as [fbody|] eqn:Hmain; [exact Hmain|].
  destruct (first_lecture_name body) as [n|]; [reflexivity | exact Hmain].
Qed.

Section Entry.

Context `{Host}.

(** C5, as the program has it.  [convert] walks the body of one entry
    function: the last top-level [def main] when the file has one;
    otherwise the last top-level [def] that carries the name of the
    first top-level [def] whose name starts with [lecture_] (that first
    [def] itself unless the name is defined again).  The walk starts
    with the top-level code in the code buffer and is followed by the
    two flushes.  With no [def main] and no [def lecture_...] nothing is
    walked, and the notebook holds the single code cell of the top-level
    code, or no cell when there is none. *)
Theorem entry_function_walk (depth : nat) (refs_py : references_py)
    (parsed : list stmt) :
  (forall fbody,
      entry_function parsed = Some fbody ->
      convert depth (init refs_py parsed)
      = option_map (fun self => cells (flush_markdown (flush_code self)))
          (process_body depth fbody
             (with_code (init refs_py parsed) (top_level_code parsed))))
  /\ (entry_function parsed = None ->
      convert depth (init refs_py parsed)
      = Some match top_level_code parsed with
             | [] => []
             | _ :: _ => [code_cell (top_level_code parsed)]
             end)
  /\ (forall fbody,
         last_def "main" parsed = Some fbody -> entry_function parsed = Some fbody)
  /\ (forall n,
         last_def "main" parsed = None ->
         first_lecture_name parsed = Some n ->
         entry_function parsed = last_def n parsed)
  /\ (last_def "main" parsed = None ->
      first_lecture_name parsed = None ->
      entry_function parsed = None).
Proof.
  assert (Hentry := entry_point_function parsed).
  repeat apply conj.
  - intros fbody Hf. unfold convert. simpl. rewrite Hentry, Hf.
    now destruct (process_body depth fbody _).
  - intros Hf. unfold convert. simpl. rewrite Hentry, Hf.
    unfold flush_code, flush_markdown. simpl.
    now destruct (top_level_code parsed).
  - intros fbody Hmain. unfold entry_function. now rewrite Hmain.
  - intros n Hmain Hfirst. unfold entry_function. now rewrite Hmain, Hfirst.
  - intros Hmain Hfirst. unfold entry_function. now rewrite Hmain, Hfirst.
Qed.

End Entry.

(** C5 as stated fails: the file has no [main], its first top-level
    function whose name starts with [lecture_] is the first
    [lecture_a], with the body that prints [one]; the notebook holds the
    prose of the second [lecture_a] instead. *)
Lemma redefined_entry_walks_last_definition :
  last_def "main" redefined_script = None
  /\ nth_error redefined_script 0
     = Some (def_stmt "def lecture_a(): text('one')" "lecture_a" lecture_one)
  /\ Py.startswith "lecture_a" "lecture_" = true
  /\ convert (H := plain_host) 1 (init Missing redefined_script)
     = Some [mkCell markdown ["two" +:+ NL]]
  /\ option_map (fun self => cells (flush_markdown (flush_code self)))
       (process_body (H := plain_host) 1 lecture_one (init Missing redefined_script))
     = Some [mkCell markdown ["one" +:+ NL]].
Proof. repeat apply conj; vm_compute; reflexivity. Qed.

(* ===================================================================== *)
(** ** The notebook as a whole *)
(* ===================================================================== *)

Section Notebook.

Context `{Host}.

(** A walk that ends leaves at most one buffer in use and the function
    and reference tables as they were. *)
Theorem walk_keeps_one_buffer (depth : nat) (body : list stmt)
    (self self' : LectureConverter) :
  current_markdown self = [] \/ current_code self = [] ->
  process_body depth body self = Some self' ->
  (current_markdown self' = [] \/ current_code self' = [])
  /\ references self' = references self
  /\ functions self' = functions self.
Proof.
  intros Hone Hrun.
  pose proof (process_body_follows self depth body self (conj eq_refl eq_refl) Hone)
    as Hwalk.
  destruct (flatten depth self body) as [met|]; [|congruence].
  destruct Hwalk as (self2 & Hrun2 & [Hrefs Hfuns] & Hone2 & _).
  assert (self2 = self') as <- by congruence. auto.
Qed.

(** The cells of the notebook: the runs of the top-level code followed
    by the statements met in the entry function; the single cell of the
    top-level code when the file has no entry function. *)
Theorem notebook_cells (depth : nat) (refs_py : references_py) (parsed : list stmt) :
  match entry_function parsed with
  | Some fbody =>
      match flatten depth (init refs_py parsed) fbody with
      | Some met =>
          convert depth (init refs_py parsed)
          = Some (cells_of_runs (CodeText (top_level_code parsed) :: met))
      | None => convert depth (init refs_py parsed) = None
      end
  | None =>
      convert depth (init refs_py parsed)
      = Some (cells_of_runs [CodeText (top_level_code parsed)])
  end.
Proof.
  unfold convert. simpl. rewrite entry_point_function.
  set (start := with_code (init refs_py parsed) (top_level_code parsed)).
  assert (Hstart : one_buffer start) by (left; reflexivity).
  assert (Hopen : forall items,
             cells_of_runs (open_run start ++ items)
             = cells_of_runs (CodeText (top_level_code parsed) :: items)).
  { intros items. unfold start, open_run. simpl.
    destruct (top_level_code parsed); [rewrite cells_code_nil|]; reflexivity. }
  destruct (entry_function parsed) as [fbody|].
  - pose proof (process_body_follows (init refs_py parsed) depth fbody start
                  (conj eq_refl eq_refl) Hstart) as Hwalk.
    destruct (flatten depth (init refs_py parsed) fbody) as [met|].
    + destruct Hwalk as (self' & Hrun & _ & Hone' & Hcells).
      fold start. rewrite Hrun, final_flush_cells by exact Hone'.
      specialize (Hcells []). rewrite !app_nil_r in Hcells.
      now rewrite Hcells, Hopen.
    + fold start. now rewrite Hwalk.
  - fold start. rewrite final_flush_cells by exact Hstart.
    specialize (Hopen []). rewrite app_nil_r in Hopen.
    rewrite Hopen. reflexivity.
Qed.

End Notebook.

Lemma walk_keeps_one_buffer_witness :
  (current_markdown (init Missing mixed_script) = []
   \/ current_code (init Missing mixed_script) = [])
  /\ process_body (H := plain_host) 1 mixed_body (init Missing mixed_script)
     = Some (mkConverter mixed_script (collect_functions mixed_script) ∅
               [ mkCell markdown ["A" +:+ NL +:+ NL +:+ "B" +:+ NL];
                 mkCell code ["x = 1" +:+ NL +:+ "y = 2" +:+ NL] ]
               ["C"] [])
  /\ (["C"] = [] \/ @nil string = []).
Proof.
  split; [left; reflexivity|]. split; [vm_compute; reflexivity|].
  exact (proj1 (walk_keeps_one_buffer (H := plain_host) 1 mixed_body
                  (init Missing mixed_script) _ (or_introl eq_refl)
                  ltac:(vm_compute; reflexivity))).
Defined.

(** Every entry of the table that [load_references] builds has a
    non-empty url. *)
Theorem reference_urls_nonempty (refs_py : references_py) (parsed : list stmt)
    (name t u : string) :
  load_references refs_py parsed !! name = Some (t, u) -> u <> "".
Proof.
  intros Hin. apply truthy_true.
  exact (load_references_urls refs_py parsed name t u Hin).
Qed.

Lemma reference_urls_nonempty_witness :
  load_references Missing links_script !! "paper" = Some ("Attention", "https://a.org")
  /\ "https://a.org" <> "".
Proof.
  split; [vm_compute; reflexivity|].
  exact (reference_urls_nonempty Missing links_script "paper" "Attention"
           "https://a.org" ltac:(vm_compute; reflexivity)).
Defined.

(* ===================================================================== *)
(** ** Walks: what they keep, and how deep they go *)
(* ===================================================================== *)

Lemma grows_refl (a : LectureConverter) : grows a a.
Proof. repeat split. exists []. now rewrite app_nil_r. Qed.

Lemma grows_trans (a b c : LectureConverter) : grows a b -> grows b c -> grows a c.
Proof.
  intros (Ht & Hf & Hr & eb & Hb) (Ht' & Hf' & Hr' & ec & Hc).
  repeat split; try congruence.
  exists (eb ++ ec). now rewrite Hc, Hb, app_assoc.
Qed.

Lemma act_grows (r : role) (self : LectureConverter) : grows self (act r self).
Proof.
  destruct self as [t f rf c md cd], r; unfold grows, flush_code, flush_markdown;
    simpl; destruct cd, md; simpl; repeat split;
    try (exists []; now rewrite app_nil_r);
    try (eexists; reflexivity);
    try (eexists; rewrite <- app_assoc; reflexivity).
Qed.

Section Depth.

Context `{Host}.

Lemma process_stmt_cases
    (recur : list stmt -> LectureConverter -> option LectureConverter)
    (body : list stmt) (self : LectureConverter) (s : stmt) :
  (exists fbody,
      inlined_body self s = Some fbody
      /\ process_stmt recur body self s = recur fbody (flush_markdown (flush_code self)))
  \/ (inlined_body self s = None
      /\ process_stmt recur body self s = Some (act (role_of self body s) self)).
Proof.
  rewrite process_stmt_role. unfold role_of.
  destruct (inlined_body self s) as [fbody|] eqn:Hin.
  - left. exists fbody. split; [reflexivity|].
    assert (content_call_of s = None /\ content_tuple_of s = None) as [-> ->].
    { destruct s as [seg n].
      unfold inlined_body, content_call_of, content_tuple_of in *. simpl in *.
      destruct n as [value| | | | | | ]; try discriminate.
      destruct value as [ | |f args kws| | | | | ]; try discriminate.
      destruct f as [ |g| | | | | | ]; try discriminate.
      destruct (in_names g CONTENT_FUNCTIONS); [discriminate | auto]. }
    reflexivity.
  - right. split; [reflexivity|].
    destruct (content_call_of s); [reflexivity|].
    destruct (content_tuple_of s); reflexivity.
Qed.

Lemma for_each_grows
    (recur : list stmt -> LectureConverter -> option LectureConverter)
    (body stmts : list stmt) :
  (forall fbody a b, recur fbody a = Some b -> grows a b) ->
  forall self r,
    for_each (process_stmt recur body) stmts self = Some r -> grows self r.
Proof.
  intros Hrec. induction stmts as [|s stmts IH]; intros self r; simpl.
  - intros [= <-]. apply grows_refl.
  - destruct (process_stmt recur body self s) as [self1|] eqn:Hstep; [|discriminate].
    intros Hrest. apply (grows_trans _ self1); [|now apply IH].
    destruct (process_stmt_cases recur body self s) as [(fbody & _ & Heq)|[_ Heq]];
      rewrite Heq in Hstep.
    + apply (grows_trans _ (act (Inline fbody) self)); [apply act_grows|].
      now apply (Hrec fbody).
    + injection Hstep as <-. apply act_grows.
Qed.

Lemma process_body_grows (depth : nat) :
  forall body self r, process_body depth body self = Some r -> grows self r.
Proof.
  induction depth as [|depth IH]; intros body self r; simpl; [discriminate|].
  now apply for_each_grows.
Qed.

Lemma for_each_deeper
    (shallow deep : list stmt -> LectureConverter -> option LectureConverter)
    (body stmts : list stmt) :
  (forall fbody a b, shallow fbody a = Some b -> deep fbody a = Some b) ->
  forall self r,
    for_each (process_stmt shallow body) stmts self = Some r ->
    for_each (process_stmt deep body) stmts self = Some r.
Proof.
  intros Hrec. induction stmts as [|s stmts IH]; intros self r; simpl; [auto|].
  destruct (process_stmt shallow body self s) as [self1|] eqn:Hstep; [|discriminate].
  intros Hrest.
  assert (process_stmt deep body self s = Some self1) as ->.
  { destruct (process_stmt_cases shallow body self s) as [(fb & Hin & Heq)|[Hin Heq]];
      destruct (process_stmt_cases deep body self s) as [(fb' & Hin' & Heq')|[Hin' Heq']];
      try congruence.
    rewrite Heq'. assert (fb' = fb) as -> by congruence.
    apply Hrec. now rewrite <- Heq. }
  now apply IH.
Qed.

Lemma process_body_deeper (depth : nat) :
  forall body self r,
    process_body depth body self = Some r ->
    process_body (S depth) body self = Some r.
Proof.
  induction depth as [|depth IH]; intros body self r; [discriminate|].
  intros Hrun. change (for_each (process_stmt (process_body (S depth)) body) body self
                       = Some r).
  now apply (for_each_deeper (process_body depth)).
Qed.

(** A walk that ends within some depth ends with the same converter
    within every greater depth: the bound only decides whether the walk
    ends, never what it produces. *)
Theorem walk_depth_monotone (depth deeper : nat) (body : list stmt)
    (self r : LectureConverter) :
  depth <= deeper ->
  process_body depth body self = Some r ->
  process_body deeper body self = Some r.
Proof.
  intros Hle Hrun. induction Hle as [|deeper _ IH]; [exact Hrun|].
  now apply process_body_deeper.
Qed.


Lemma inlined_body_tables (a b : LectureConverter) (s : stmt) :
  functions a = functions b -> inlined_body a s = inlined_body b s.
Proof. unfold inlined_body. now intros ->. Qed.

Lemma for_each_stuck
    (recur : list stmt -> LectureConverter -> option LectureConverter)
    (body stmts : list stmt) (s : stmt) (fbody : list stmt)
    (fns : Py.dict (list stmt)) :
  In s stmts ->
  (forall self, functions self = fns -> inlined_body self s = Some fbody) ->
  (forall self, functions self = fns -> recur fbody self = None) ->
  (forall fb a b, recur fb a = Some b -> grows a b) ->
  forall self, functions self = fns ->
    for_each (process_stmt recur body) stmts self = None.
Proof.
  intros Hin Hcall Hnone Hgrow.
  induction stmts as [|s' stmts IH]; intros self Hfns; [destruct Hin|].
  simpl. destruct (process_stmt recur body self s') as [self1|] eqn:Hstep; [|reflexivity].
  assert (Hfns1 : functions self1 = fns).
  { assert (grows self self1) as (_ & Hf & _).
    { apply (for_each_grows recur body [s'] Hgrow). simpl. now rewrite Hstep. }
    congruence. }
  destruct Hin as [->|Hin]; [|now apply IH].
  destruct (process_stmt_cases recur body self s) as [(fb & Hfb & Heq)|[Hfb Heq]].
  - rewrite (Hcall self Hfns) in Hfb. injection Hfb as <-.
    rewrite Heq, Hnone in Hstep; [discriminate|].
    destruct (act_grows (Inline fbody) self) as (_ & Hf & _). simpl in Hf. congruence.
  - rewrite (Hcall self Hfns) in Hfb. discriminate.
Qed.

(** A function whose body holds, as a statement of its own, a bare call
    to that same function is never walked to the end: within no depth
    does the walk of its body yield a converter (Python ends it with
    [RecursionError]). *)
Theorem self_call_never_ends (depth : nat) (body : list stmt)
    (self : LectureConverter) (s : stmt) :
  In s body ->
  inlined_body self s = Some body ->
  process_body depth body self = None.
Proof.
  intros Hin Hcall. revert self Hcall.
  induction depth as [|depth IH]; intros self Hcall; [reflexivity|].
  simpl. apply (for_each_stuck _ body body s body (functions self)); auto.
  - intros self1 Hf. now rewrite (inlined_body_tables self1 self).
  - intros self1 Hf. apply IH. now rewrite (inlined_body_tables self1 self).
  - intros fb a b. apply process_body_grows.
Qed.

End Depth.

Lemma walk_depth_monotone_witness :
  process_body (H := plain_host) 7 intro_main_body (init Missing intro_script)
  = Some (mkConverter intro_script (collect_functions intro_script) ∅
            [mkCell markdown ["Welcome" +:+ NL]] [] ["x = 1" +:+ NL]).
Proof.
  exact (walk_depth_monotone (H := plain_host) 2 7 intro_main_body
           (init Missing intro_script) _ ltac:(lia) ltac:(vm_compute; reflexivity)).
Defined.


Lemma self_call_never_ends_witness :
  process_body (H := plain_host) 50 looping_body (init Missing looping_script) = None.
Proof.
  exact (self_call_never_ends (H := plain_host) 50 looping_body
           (init Missing looping_script) (expr_stmt "main()" (call_of "main" []))
           ltac:(right; left; reflexivity) ltac:(vm_compute; reflexivity)).
Defined.

(* ===================================================================== *)
(** ** The cells that come out *)
(* ===================================================================== *)

Lemma rstrip_last (s : string) (ch : ascii) :
  last_char (Py.rstrip s) = Some ch -> Py.isspace ch = false.
Proof.
  induction s as [|c s IH]; simpl; [discriminate|].
  destruct (Py.rstrip s) as [|k kept] eqn:Hkept.
  - destruct (Py.isspace c) eqn:Hc; simpl; [discriminate|].
    intros [= <-]. exact Hc.
  - exact IH.
Qed.

Lemma run_cell_well_formed (r : role) : Forall well_formed_cell (run_cell r).
Proof.
  destruct r as [[|e es]|[|e es]|fb]; simpl; repeat constructor.
  - eexists. split; [reflexivity|]. discriminate.
  - eexists. split; [reflexivity|]. intros _ ch. apply rstrip_last.
Qed.

Lemma cells_of_runs_well_formed (items : list role) :
  Forall well_formed_cell (cells_of_runs items).
Proof.
  unfold cells_of_runs. induction (runs items) as [|r rs IH]; simpl; [constructor|].
  apply Forall_app. split; [apply run_cell_well_formed | exact IH].
Qed.

Section Output.

Context `{Host}.

Lemma convert_gives_runs (depth : nat) (refs_py : references_py) (parsed : list stmt)
    (out : list cell) :
  convert depth (init refs_py parsed) = Some out ->
  exists items, out = cells_of_runs items.
Proof.
  unfold convert. simpl.
  set (start := with_code (init refs_py parsed) (top_level_code parsed)).
  assert (Hstart : one_buffer start) by (left; reflexivity).
  destruct (Py.dict_get _ _) as [fbody|].
  - pose proof (process_body_follows start depth fbody start
                  (conj eq_refl eq_refl) Hstart) as Hwalk.
    destruct (flatten depth start fbody) as [met|].
    + destruct Hwalk as (self' & Hrun & _ & Hone' & Hcells).
      fold start. rewrite Hrun, final_flush_cells by exact Hone'.
      intros [= <-]. specialize (Hcells []). rewrite !app_nil_r in Hcells.
      rewrite Hcells. now exists (open_run start ++ met).
    + fold start. rewrite Hwalk. discriminate.
  - fold start. rewrite final_flush_cells by exact Hstart.
    intros [= <-]. now exists (open_run start).
Qed.

(** Every cell of a notebook that [convert] produces holds exactly one
    source string, that string ends with a newline, and in a code cell
    no white space stands before that newline. *)
Theorem notebook_cells_well_formed (depth : nat) (refs_py : references_py)
    (parsed : list stmt) (out : list cell) :
  convert depth (init refs_py parsed) = Some out ->
  Forall well_formed_cell out.
Proof.
  intros Hout. destruct (convert_gives_runs _ _ _ _ Hout) as [items ->].
  apply cells_of_runs_well_formed.
Qed.

End Output.

Lemma notebook_cells_well_formed_witness :
  Forall well_formed_cell
    [ mkCell markdown ["A" +:+ NL +:+ NL +:+ "B" +:+ NL];
      mkCell code ["x = 1" +:+ NL +:+ "y = 2" +:+ NL];
      mkCell markdown ["C" +:+ NL] ].
Proof.
  exact (notebook_cells_well_formed (H := plain_host) 1 Missing mixed_script _
           ltac:(vm_compute; reflexivity)).
Defined.

(** Flushing a buffer twice emits nothing more than flushing it once;
    and while at most one buffer is in use, as every walk keeps it, the
    two flushes can be done in either order. *)
Theorem flush_twice_and_order (self : LectureConverter) :
  flush_markdown (flush_markdown self) = flush_markdown self
  /\ flush_code (flush_code self) = flush_code self
  /\ (current_markdown self = [] \/ current_code self = [] ->
      flush_markdown (flush_code self) = flush_code (flush_markdown self)).
Proof.
  destruct self as [t f r c md cd]. unfold flush_markdown, flush_code. simpl.
  repeat apply conj.
  - destruct md; reflexivity.
  - destruct cd; reflexivity.
  - intros [-> | ->]; [destruct cd | destruct md]; reflexivity.
Qed.

(* ===================================================================== *)
(** ** The function table *)
(* ===================================================================== *)

Lemma dict_set_keys_nodup {V} (k : string) (v : V) (d : Py.dict V) :
  NoDup (Py.dict_keys d) -> NoDup (Py.dict_keys (Py.dict_set k v d)).
Proof.
  intros Hd. rewrite dict_keys_set.
  destruct (Py.dict_mem k d) eqn:Hmem; [exact Hd|].
  apply NoDup_app. split; [exact Hd|]. split; [|repeat constructor; inversion 1].
  intros x Hx Hk. apply list_elem_of_In in Hx, Hk.
  destruct Hk as [<-|[]]. apply dict_mem_keys in Hx. congruence.
Qed.

Lemma fold_functions_nodup (body : list stmt) (d : Py.dict (list stmt)) :
  NoDup (Py.dict_keys d) ->
  NoDup (Py.dict_keys
           (fold_left
              (fun d s =>
                 match node_of s with
                 | FunctionDef n fbody => Py.dict_set n fbody d
                 | _ => d
                 end)
              body d)).
Proof.
  revert d. induction body as [|s body IH]; intros d Hd; simpl; [exact Hd|].
  apply IH. destruct (node_of s); try exact Hd. now apply dict_set_keys_nodup.
Qed.

Lemma fold_last_def_some (name : string) (body : list stmt) (acc : option (list stmt)) :
  is_Some
    (fold_left
       (fun acc s =>
          match node_of s with
          | FunctionDef n fbody => if String.eqb n name then Some fbody else acc
          | _ => acc
          end)
       body acc)
  <-> is_Some acc \/ In name (def_names body).
Proof.
  revert acc. induction body as [|s body IH]; intros acc; simpl; [tauto|].
  rewrite IH. unfold def_names. simpl.
  destruct (node_of s) as [ | |n fbody| | | | ]; simpl; try tauto.
  destruct (String.eqb_spec n name) as [->|Hne].
  - split; [auto|]. intros _. left. eauto.
  - split; [tauto|]. intros [Hacc|[Heq|Hin]]; [auto | congruence | auto].
Qed.

(** The table of functions that [__init__] builds: looking a name up
    gives the body of the last top-level [def] of that name; no name is
    listed twice; and the names listed are exactly those of the
    top-level [def]s (an [async def] or a class is not among them). *)
Theorem function_table (refs_py : references_py) (parsed : list stmt) (name : string) :
  Py.dict_get name (functions (init refs_py parsed)) = last_def name parsed
  /\ NoDup (Py.dict_keys (functions (init refs_py parsed)))
  /\ (In name (Py.dict_keys (functions (init refs_py parsed)))
      <-> In name (def_names parsed)).
Proof.
  simpl. split; [apply collect_functions_get|].
  split; [apply fold_functions_nodup; constructor|].
  rewrite <- dict_mem_keys. unfold Py.dict_mem.
  rewrite collect_functions_get. unfold last_def.
  pose proof (fold_last_def_some name parsed None) as Hsome.
  destruct (fold_left _ parsed None) as [fbody|].
  - split; [|reflexivity]. intros _.
    destruct (proj1 Hsome (ex_intro _ fbody eq_refl)) as [[x Hx]|Hin];
      [discriminate | exact Hin].
  - split; [discriminate|]. intros Hin.
    destruct (proj2 Hsome (or_intror Hin)) as [x Hx]. discriminate.
Qed.

(* ===================================================================== *)
(** ** The output path *)
(* ===================================================================== *)

Lemma prefix_cons (a b : ascii) (p s : string) :
  String.prefix (String a p) (String b s)
  = if ascii_dec a b then String.prefix p s else false.
Proof. reflexivity. Qed.

Lemma prefix_nil (s : string) : String.prefix "" s = true.
Proof. destruct s; reflexivity. Qed.

Lemma prefix_py_app (s : string) :
  s <> "" -> String.prefix ".py" (s +:+ ".py") = String.prefix ".py" s.
Proof.
  destruct s as [|a [|b [|c s]]]; [congruence| | |]; intros _;
    rewrite ?append_cons, !prefix_cons;
    destruct (ascii_dec "." a); try reflexivity;
    destruct (ascii_dec "p" b); try reflexivity;
    destruct (ascii_dec "y" c); try reflexivity.
  now rewrite !prefix_nil.
Qed.

Lemma prefix_py_length (c : ascii) (rest : string) :
  String.prefix ".py" (String c rest) = true -> 2 <= String.length rest.
Proof.
  destruct rest as [|b [|d rest]]; [| |simpl; lia]; rewrite !prefix_cons;
    destruct (ascii_dec "." c); try discriminate;
    destruct (ascii_dec "p" b); discriminate.
Qed.

Lemma replace_from_skip (old new : string) (skip : nat) (c : ascii) (rest : string) :
  Py.replace_from old new (S skip) (String c rest) = Py.replace_from old new skip rest.
Proof. reflexivity. Qed.

Lemma replace_from_scan (old new : string) (c : ascii) (rest : string) :
  Py.replace_from old new 0 (String c rest)
  = if String.prefix old (String c rest)
    then new +:+ Py.replace_from old new (String.length old - 1) rest
    else String c (Py.replace_from old new 0 rest).
Proof. reflexivity. Qed.

Lemma replace_py_app (stem : string) (skip : nat) :
  skip <= String.length stem ->
  Py.replace_from ".py" ".ipynb" skip (stem +:+ ".py")
  = Py.replace_from ".py" ".ipynb" skip stem +:+ ".ipynb".
Proof.
  revert skip. induction stem as [|c stem IH]; intros skip Hskip.
  - simpl in Hskip. assert (skip = 0) as -> by lia. reflexivity.
  - destruct skip as [|skip].
    + rewrite append_cons, !replace_from_scan.
      rewrite <- append_cons, prefix_py_app by discriminate.
      destruct (String.prefix ".py" (String c stem)) eqn:Hp.
      * rewrite IH by now apply (prefix_py_length c).
        now rewrite append_assoc.
      * rewrite IH by lia. now rewrite append_cons.
    + simpl in Hskip. rewrite append_cons, !replace_from_skip.
      apply IH. lia.
Qed.

Lemma replace_absent (old new s : string) :
  occurs old s = false -> Py.replace_from old new 0 s = s.
Proof.
  induction s as [|c s IH]; [reflexivity|].
  intros Hocc.
  change (occurs old (String c s))
    with (String.prefix old (String c s) || occurs old s) in Hocc.
  apply orb_false_iff in Hocc as [Hp Hrest].
  rewrite replace_from_scan, Hp. now rewrite IH.
Qed.

(** The path the notebook is written to.  A non-empty [--output] is
    taken as it is, an empty one counts as not given.  Without it, an
    input path that ends in [.py] gets [.ipynb] in place of that ending
    (and whatever [.py] stands earlier in the path is replaced too); an
    input path in which [.py] occurs nowhere is left as it is, so that
    the notebook is written to the input path itself. *)
Theorem output_path_cases (input_path : string) :
  (forall given, given <> "" -> output_path (Some given) input_path = given)
  /\ output_path (Some "") input_path = output_path None input_path
  /\ (occurs ".py" input_path = false -> output_path None input_path = input_path)
  /\ (forall stem,
         input_path = stem +:+ ".py" ->
         output_path None input_path = output_path None stem +:+ ".ipynb")
  /\ (forall stem,
         input_path = stem +:+ ".py" ->
         occurs ".py" stem = false ->
         output_path None input_path = stem +:+ ".ipynb").
Proof.
  unfold output_path, Py.replace. repeat apply conj.
  - intros given Hgiven. apply truthy_true in Hgiven. now rewrite Hgiven.
  - reflexivity.
  - apply replace_absent.
  - intros stem ->. apply replace_py_app. lia.
  - intros stem -> Hstem. rewrite replace_py_app by lia.
    now rewrite replace_absent.
Qed.

Example output_path_samples :
  output_path None "lectures/lecture_01.py" = "lectures/lecture_01.ipynb"
  /\ output_path None "my.pycache/run.py" = "my.ipynbcache/run.ipynb"
  /\ output_path None "notes.txt" = "notes.txt"
  /\ output_path (Some "out.ipynb") "a.py" = "out.ipynb".
Proof. repeat apply conj; reflexivity. Qed.

(* ===================================================================== *)
(** ** Formatting the other content calls *)
(* ===================================================================== *)

Section OtherCalls.

Context `{Host}.

(** An [image] call.  The path is the first argument, or the url of the
    reference it names.  A path that starts with [http://] or
    [https://] is used as it is and the file system is not asked; any
    other path is looked up next to the input file: a file that can be
    read is embedded as a [data:] address, with [image/png] when its
    type is not known, and a file that is absent or unreadable leaves
    the path as it is.  The address is shown as an [img] tag when a
    width is given and as a Markdown image otherwise. *)
Theorem image_formatting (self : LectureConverter) (node : call)
    (context_body : option (list stmt)) (path : string) (width : value) :
  func_id node = "image" ->
  (get_arg_value self node 0 None context_body = VStr path
   \/ exists t, get_arg_value self node 0 None context_body = VRef t path) ->
  get_arg_value self node 1 (Some "width") context_body = width ->
  (is_remote path = true ->
   format_content_call self node context_body = show_image path width)
  /\ (is_remote path = false -> read_image path = None ->
      format_content_call self node context_body = show_image path width)
  /\ (forall data mime,
         is_remote path = false -> read_image path = Some (data, Some mime) ->
         mime <> "" ->
         format_content_call self node context_body
         = show_image ("data:" +:+ mime +:+ ";base64," +:+ data) width)
  /\ (forall data mime,
         is_remote path = false -> read_image path = Some (data, mime) ->
         mime = None \/ mime = Some "" ->
         format_content_call self node context_body
         = show_image ("data:image/png;base64," +:+ data) width)
  /\ (width = VStr "" -> forall src, show_image src width = "![image](" +:+ src +:+ ")")
  /\ (forall w, width = VStr w -> w <> "" ->
      forall src,
        show_image src width
        = "<img src=" +:+ String (ascii_of_nat 34) src
          +:+ String (ascii_of_nat 34) " width="
          +:+ String (ascii_of_nat 34) w
          +:+ String (ascii_of_nat 34) " />").
Proof.
  intros Himage Hpath Hwidth.
  assert (Hfmt : format_content_call self node context_body
                 = if is_remote path then show_image path width
                   else match read_image path with
                        | Some (data, mime) =>
                            show_image
                              ("data:" +:+ match mime with
                                           | Some m => if Py.truthy m then m else "image/png"
                                           | None => "image/png"
                                           end +:+ ";base64," +:+ data) width
                        | None => show_image path width
                        end).
  { unfold format_content_call. rewrite Himage, Hwidth.
    change (String.eqb "image" "text") with false.
    change (String.eqb "image" "link") with false.
    change (String.eqb "image" "image") with true. cbv iota.
    destruct Hpath as [-> | [t ->]]; reflexivity. }
  rewrite Hfmt. repeat apply conj.
  - now intros ->.
  - now intros -> ->.
  - intros data mime -> -> Hmime. apply truthy_true in Hmime. now rewrite Hmime.
  - intros data mime -> -> [-> | ->]; reflexivity.
  - intros -> src. reflexivity.
  - intros w -> Hw src. apply truthy_true in Hw.
    unfold show_image, img_tag, truthy_value, str_value. rewrite Hw.
    reflexivity.
Qed.

Lemma get_arg_value_reference (self : LectureConverter) (node : call) (arg_index : nat)
    (kwarg_name : option string) (context_body : option (list stmt))
    (id t u : string) :
  call_args node !! arg_index = Some (Name id) ->
  references self !! id = Some (t, u) ->
  get_arg_value self node arg_index kwarg_name context_body = VRef t u.
Proof.
  intros Harg Hid. unfold get_arg_value, select_arg. now rewrite Harg, Hid.
Qed.

(** A call whose first argument names a reference of the table: [text]
    gives the reference's title; [article_link], [blog_link], [x_link]
    and [youtube_link] give a link labelled [link] to its url;
    [named_link] gives a link labelled with its title, to the second
    argument (to that one's url when it names a reference too). *)
Theorem reference_arguments (self : LectureConverter) (node : call)
    (context_body : option (list stmt)) (id t u : string) :
  call_args node !! 0 = Some (Name id) ->
  references self !! id = Some (t, u) ->
  (func_id node = "text" -> format_content_call self node context_body = t)
  /\ (In (func_id node) ["article_link"; "blog_link"; "x_link"; "youtube_link"] ->
      format_content_call self node context_body = "[link](" +:+ u +:+ ")")
  /\ (func_id node = "named_link" ->
      format_content_call self node context_body
      = "[" +:+ t +:+ "]("
        +:+ match get_arg_value self node 1 None context_body with
            | VStr s => s
            | VRef _ u' => u'
            end +:+ ")").
Proof.
  intros Harg Hid.
  pose proof (fun kw => get_arg_value_reference self node 0 kw context_body id t u Harg Hid)
    as Hval.
  unfold format_content_call. repeat apply conj.
  - intros ->. now rewrite Hval.
  - intros [<- | [<- | [<- | [<- | []]]]]; now rewrite Hval.
  - intros ->. now rewrite Hval.
Qed.


End OtherCalls.

Lemma image_formatting_witness :
  format_content_call (H := one_image_host) (init Missing links_script) remote_image
    (Some links_body)
  = "<img src=" +:+ String (ascii_of_nat 34) "https://x.org/a.png"
    +:+ String (ascii_of_nat 34) " width=" +:+ String (ascii_of_nat 34) "300"
    +:+ String (ascii_of_nat 34) " />"
  /\ format_content_call (H := one_image_host) (init Missing links_script) local_image
       (Some links_body)
     = "![image](data:image/png;base64,QUJD)"
  /\ format_content_call (H := plain_host) (init Missing links_script) local_image
       (Some links_body)
     = "![image](figures/a.png)".
Proof.
  repeat apply conj.
  - exact (proj1 (image_formatting (H := one_image_host) (init Missing links_script)
                    remote_image (Some links_body) "https://x.org/a.png" (VStr "300")
                    eq_refl (or_introl eq_refl) eq_refl) eq_refl).
  - exact (proj1 (proj2 (proj2 (proj2
             (image_formatting (H := one_image_host) (init Missing links_script)
                local_image (Some links_body) "figures/a.png" (VStr "")
                eq_refl (or_introl eq_refl) eq_refl))))
             "QUJD" None eq_refl eq_refl (or_introl eq_refl)).
  - exact (proj1 (proj2
             (image_formatting (H := plain_host) (init Missing links_script)
                local_image (Some links_body) "figures/a.png" (VStr "")
                eq_refl (or_introl eq_refl) eq_refl))
             eq_refl eq_refl).
Defined.

Lemma reference_arguments_witness :
  format_content_call (H := plain_host) (init Missing links_script) paper_text
    (Some links_body) = "Attention"
  /\ format_content_call (H := plain_host) (init Missing links_script) paper_x_link
       (Some links_body) = "[link](https://a.org)"
  /\ format_content_call (H := plain_host) (init Missing links_script) paper_named_link
       (Some links_body) = "[Attention](https://a.org)".
Proof.
  repeat apply conj.
  - exact (proj1 (reference_arguments (H := plain_host) (init Missing links_script)
                    paper_text (Some links_body) "paper" "Attention" "https://a.org"
                    eq_refl ltac:(vm_compute; reflexivity)) eq_refl).
  - exact (proj1 (proj2 (reference_arguments (H := plain_host) (init Missing links_script)
                    paper_x_link (Some links_body) "paper" "Attention" "https://a.org"
                    eq_refl ltac:(vm_compute; reflexivity)))
             ltac:(right; right; left; reflexivity)).
  - exact (proj2 (proj2 (reference_arguments (H := plain_host) (init Missing links_script)
                    paper_named_link (Some links_body) "paper" "Attention" "https://a.org"
                    eq_refl ltac:(vm_compute; reflexivity))) eq_refl).
Defined.

(* ===================================================================== *)
(** ** Reference assignments at top level *)
(* ===================================================================== *)

Lemma top_level_code_acc (body : list stmt) (acc : list string) :
  fold_left
    (fun acc s =>
       if skipped_at_top_level s then acc
       else
         match get_source_segment s with
         | Some stmt_source =>
             if Py.truthy stmt_source then acc ++ [stmt_source +:+ NL] else acc
         | None => acc
         end)
    body acc
  = acc ++ top_level_code body.
Proof.
  unfold top_level_code. revert acc.
  induction body as [|s body IH]; intros acc; simpl; [now rewrite app_nil_r|].
  rewrite IH, (IH (if skipped_at_top_level s then [] else _)).
  destruct (skipped_at_top_level s); [reflexivity|].
  destruct (get_source_segment s) as [src|]; [|reflexivity].
  destruct (Py.truthy src); [|reflexivity].
  now rewrite <- app_assoc.
Qed.

Lemma top_level_code_app (a b : list stmt) :
  top_level_code (a ++ b) = top_level_code a ++ top_level_code b.
Proof.
  unfold top_level_code at 1. rewrite fold_left_app.
  fold (top_level_code a). apply top_level_code_acc.
Qed.

Lemma scan_for_refs_without (pre post : list stmt) (s : stmt) :
  (forall refs, scan_stmt refs s = refs) ->
  _scan_for_refs (pre ++ s :: post) = _scan_for_refs (pre ++ post).
Proof.
  intros Hs. unfold _scan_for_refs. rewrite !fold_left_app. simpl. now rewrite Hs.
Qed.

(** A top-level assignment of a [Reference] or [arxiv_reference] call
    never reaches the code of the notebook; and when its url, as
    [get_arg_value_simple] reads it, is empty (absent, or no constant),
    it gives the reference table nothing either: the top-level code and
    the table are those of the module without the assignment, so the
    names it binds are known to neither. *)
Theorem reference_assignment_removal (refs_py : references_py) (pre post : list stmt)
    (seg : option string) (targets : list expr) (f : string) (args : list expr)
    (kws : list keyword) :
  f = "Reference" \/ f = "arxiv_reference" ->
  top_level_code (pre ++ reference_assignment seg targets f args kws :: post)
  = top_level_code (pre ++ post)
  /\ (snd (ref_title_url (mkCall f args kws)) = "" ->
      load_references refs_py (pre ++ reference_assignment seg targets f args kws :: post)
      = load_references refs_py (pre ++ post)).
Proof.
  intros Hf. split.
  - rewrite !top_level_code_app.
    change (reference_assignment seg targets f args kws :: post)
      with ([reference_assignment seg targets f args kws] ++ post).
    rewrite top_level_code_app.
    assert (top_level_code [reference_assignment seg targets f args kws] = []) as ->.
    { unfold top_level_code, skipped_at_top_level. simpl.
      destruct Hf as [-> | ->]; reflexivity. }
    reflexivity.
  - intros Hurl. unfold load_references.
    rewrite (scan_for_refs_without pre post); [reflexivity|].
    intros refs. unfold scan_stmt. simpl.
    destruct (ref_title_url (mkCall f args kws)) as [t u]. simpl in Hurl.
    now rewrite Hurl.
Qed.

Lemma reference_assignment_removal_witness :
  top_level_code [first_paper; computed_reference; untitled_stmt]
  = top_level_code [first_paper; untitled_stmt]
  /\ load_references Missing [first_paper; computed_reference; untitled_stmt]
     = load_references Missing [first_paper; untitled_stmt].
Proof.
  split.
  - exact (proj1 (reference_assignment_removal Missing [first_paper] [untitled_stmt]
                    (Some "site = Reference(title='Site', url=BASE + '/x')")
                    [Name "site"] "Reference" []
                    [Keyword (Some "title") (lit "Site"); Keyword (Some "url") OtherExpr]
                    (or_introl eq_refl))).
  - exact (proj2 (reference_assignment_removal Missing [first_paper] [untitled_stmt]
                    (Some "site = Reference(title='Site', url=BASE + '/x')")
                    [Name "site"] "Reference" []
                    [Keyword (Some "title") (lit "Site"); Keyword (Some "url") OtherExpr]
                    (or_introl eq_refl)) eq_refl).
Defined.

(* ===================================================================== *)
(** ** The two argument readers *)
(* ===================================================================== *)

Lemma first_keyword_constant (name : string) (kws : list keyword) (c : constant) :
  first_keyword name kws = Some (Constant c) ->
  first_constant_keyword name kws = Some (str c).
Proof.
  induction kws as [|[a v] kws IH]; simpl; [discriminate|].
  destruct a as [a'|]; [|exact IH].
  destruct (String.eqb a' name).
  - intros [= ->]. reflexivity.
  - destruct v; exact IH.
Qed.

(** Where the argument that [get_arg_value] selects is a constant,
    [get_arg_value_simple] reads the same string: the reader used for
    the reference table and the reader used for content calls agree on
    literal arguments, given by position or by keyword. *)
Theorem readers_agree_on_constants (self : LectureConverter) (node : call)
    (arg_index : nat) (kwarg_name : option string)
    (context_body : option (list stmt)) (c : constant) :
  select_arg node arg_index kwarg_name = Some (Constant c) ->
  get_arg_value self node arg_index kwarg_name context_body = VStr (str c)
  /\ get_arg_value_simple node arg_index kwarg_name = str c.
Proof.
  intros Hsel. split.
  - unfold get_arg_value. now rewrite Hsel.
  - unfold select_arg in Hsel. unfold get_arg_value_simple.
    destruct (call_args node !! arg_index) as [a|].
    + injection Hsel as ->. reflexivity.
    + destruct kwarg_name as [name|]; [|discriminate].
      destruct (Py.truthy name); [|discriminate].
      now rewrite (first_keyword_constant _ _ c).
Qed.

Lemma readers_agree_on_constants_witness :
  get_arg_value (init Missing links_script) remote_image 1 (Some "width") None
  = VStr "300"
  /\ get_arg_value_simple remote_image 1 (Some "width") = "300".
Proof.
  exact (readers_agree_on_constants (init Missing links_script) remote_image 1
           (Some "width") None (CInt 300) eq_refl).
Defined.
